(** * WorkerAssignmentService (Backend/services/worker_assignment_service.go)

    A shallow embedding of the worker-assignment lifecycle service: the
    models it reads and writes, the privacy-protected response projection,
    the two query operations and the four mutating operations
    (Accept, Reject, Start, Complete), with the repositories as tables in an
    explicit world and the repository / side-effect outcomes as oracles. *)

From Stdlib Require Import QArith.QArith_base.
From Stdlib Require Floats.SpecFloat.
From stdpp Require Import base gmap strings list.

Open Scope string_scope.

(* ------------------------------------------------------------------ *)
(** ** Models *)

(** time.Time, as Unix nanoseconds. *)
Abbreviation Time := Z.

(** A float64 money amount (wallet balance, price, quote, earnings).  The
    service only copies these values, it never computes with them. *)
Abbreviation Amount := Q.

Inductive AssignmentStatus :=
| AssignmentStatusAssigned
| AssignmentStatusAccepted
| AssignmentStatusRejected
| AssignmentStatusInProgress
| AssignmentStatusCompleted.

Definition AssignmentStatus_eqb (x y : AssignmentStatus) : bool :=
  match x, y with
  | AssignmentStatusAssigned, AssignmentStatusAssigned
  | AssignmentStatusAccepted, AssignmentStatusAccepted
  | AssignmentStatusRejected, AssignmentStatusRejected
  | AssignmentStatusInProgress, AssignmentStatusInProgress
  | AssignmentStatusCompleted, AssignmentStatusCompleted => true
  | _, _ => false
  end.

Inductive BookingStatus :=
| BookingStatusPending
| BookingStatusConfirmed
| BookingStatusInProgress
| BookingStatusCompleted
| BookingStatusCancelled.

(** string(booking.Status) *)
Definition BookingStatus_string (s : BookingStatus) : string :=
  match s with
  | BookingStatusPending => "pending"
  | BookingStatusConfirmed => "confirmed"
  | BookingStatusInProgress => "in_progress"
  | BookingStatusCompleted => "completed"
  | BookingStatusCancelled => "cancelled"
  end.

(** gorm.Model (the soft-delete column is left out). *)
Record GormModel := {
  gm_ID : nat;
  gm_CreatedAt : Time;
  gm_UpdatedAt : Time;
}.

Record UserSubscription := {
  us_ID : nat;
  us_PlanName : string;
  us_Status : string;
}.

(** models.User *)
Record User := {
  user_ID : nat;
  user_Name : string;
  user_Email : option string;
  user_Phone : string;
  user_UserType : string;
  user_Avatar : string;
  user_Gender : string;
  user_IsActive : bool;
  user_LastLoginAt : option Time;
  user_RoleApplicationStatus : string;
  user_ApplicationDate : option Time;
  user_ApprovalDate : option Time;
  user_WalletBalance : Amount;
  user_SubscriptionID : option nat;
  user_Subscription : option UserSubscription;
  user_HasActiveSubscription : bool;
  user_SubscriptionExpiryDate : option Time;
}.

(** models.Service; [Price] is a pointer in the model. *)
Record Service := {
  service_ID : nat;
  service_Name : string;
  service_Price : option Amount;
}.

(** models.Worker *)
Record Worker := {
  worker_ID : nat;
  worker_UserID : nat;
}.

(** models.Booking, with its preloaded [User] and [Service]. *)
Record Booking := {
  booking_Model : GormModel;
  booking_BookingReference : string;
  booking_UserID : nat;
  booking_ServiceID : nat;
  booking_Status : BookingStatus;
  booking_PaymentStatus : string;
  booking_BookingType : string;
  booking_CompletionType : option string;
  booking_ScheduledDate : option Time;
  booking_ScheduledTime : option Time;
  booking_ScheduledEndTime : option Time;
  booking_ActualStartTime : option Time;
  booking_ActualEndTime : option Time;
  booking_ActualDurationMinutes : option Z;
  booking_Address : string;
  booking_Description : string;
  booking_ContactPerson : string;
  booking_ContactPhone : string;
  booking_SpecialInstructions : string;
  booking_HoldExpiresAt : option Time;
  booking_QuoteAmount : option Amount;
  booking_QuoteNotes : string;
  booking_QuoteProvidedBy : option nat;
  booking_QuoteProvidedAt : option Time;
  booking_QuoteAcceptedAt : option Time;
  booking_QuoteExpiresAt : option Time;
  booking_User : User;
  booking_Service : Service;
}.

(** models.WorkerAssignment, with its preloaded relations. *)
Record WorkerAssignment := {
  wa_Model : GormModel;
  wa_BookingID : nat;
  wa_WorkerID : nat;
  wa_AssignedBy : nat;
  wa_Status : AssignmentStatus;
  wa_AssignedAt : Time;
  wa_AcceptedAt : option Time;
  wa_RejectedAt : option Time;
  wa_StartedAt : option Time;
  wa_CompletedAt : option Time;
  wa_AssignmentNotes : string;
  wa_AcceptanceNotes : string;
  wa_RejectionNotes : string;
  wa_RejectionReason : string;
  wa_Booking : Booking;
  wa_Worker : Worker;
  wa_AssignedByUser : User;
}.

(* ------------------------------------------------------------------ *)
(** ** Response models *)

(** models.WorkerAssignmentUserResponse: no Phone field; Subscription and
    NotificationSettings are simplified to optional strings. *)
Record WorkerAssignmentUserResponse := {
  ur_ID : nat;
  ur_Name : string;
  ur_Email : option string;
  ur_UserType : string;
  ur_Avatar : string;
  ur_Gender : string;
  ur_IsActive : bool;
  ur_LastLoginAt : option Time;
  ur_RoleApplicationStatus : string;
  ur_ApplicationDate : option Time;
  ur_ApprovalDate : option Time;
  ur_WalletBalance : Amount;
  ur_SubscriptionID : option nat;
  ur_Subscription : option string;
  ur_HasActiveSubscription : bool;
  ur_SubscriptionExpiryDate : option Time;
  ur_NotificationSettings : option string;
}.

Record WorkerAssignmentBookingResponse := {
  br_Model : GormModel;
  br_BookingReference : string;
  br_UserID : nat;
  br_ServiceID : nat;
  br_Status : string;
  br_PaymentStatus : string;
  br_BookingType : string;
  br_CompletionType : option string;
  br_ScheduledDate : option Time;
  br_ScheduledTime : option Time;
  br_ScheduledEndTime : option Time;
  br_ActualStartTime : option Time;
  br_ActualEndTime : option Time;
  br_ActualDurationMinutes : option Z;
  br_Address : string;
  br_Description : string;
  br_ContactPerson : string;
  br_ContactPhone : string;
  br_SpecialInstructions : string;
  br_HoldExpiresAt : option Time;
  br_QuoteAmount : option Amount;
  br_QuoteNotes : string;
  br_QuoteProvidedBy : option nat;
  br_QuoteProvidedAt : option Time;
  br_QuoteAcceptedAt : option Time;
  br_QuoteExpiresAt : option Time;
  br_User : WorkerAssignmentUserResponse;
  br_Service : Service;
}.

Record WorkerAssignmentResponse := {
  ar_Model : GormModel;
  ar_BookingID : nat;
  ar_WorkerID : nat;
  ar_AssignedBy : nat;
  ar_Status : AssignmentStatus;
  ar_AssignedAt : Time;
  ar_AcceptedAt : option Time;
  ar_RejectedAt : option Time;
  ar_StartedAt : option Time;
  ar_CompletedAt : option Time;
  ar_AssignmentNotes : string;
  ar_AcceptanceNotes : string;
  ar_RejectionNotes : string;
  ar_RejectionReason : string;
  ar_Booking : WorkerAssignmentBookingResponse;
  ar_Worker : Worker;
  ar_AssignedByUser : User;
}.

(** convertToPrivacyProtectedResponse *)
Definition convertToPrivacyProtectedResponse (assignment : WorkerAssignment)
    : WorkerAssignmentResponse :=
  let b := wa_Booking assignment in
  let u := booking_User b in
  {| ar_Model := wa_Model assignment;
     ar_BookingID := wa_BookingID assignment;
     ar_WorkerID := wa_WorkerID assignment;
     ar_AssignedBy := wa_AssignedBy assignment;
     ar_Status := wa_Status assignment;
     ar_AssignedAt := wa_AssignedAt assignment;
     ar_AcceptedAt := wa_AcceptedAt assignment;
     ar_RejectedAt := wa_RejectedAt assignment;
     ar_StartedAt := wa_StartedAt assignment;
     ar_CompletedAt := wa_CompletedAt assignment;
     ar_AssignmentNotes := wa_AssignmentNotes assignment;
     ar_AcceptanceNotes := wa_AcceptanceNotes assignment;
     ar_RejectionNotes := wa_RejectionNotes assignment;
     ar_RejectionReason := wa_RejectionReason assignment;
     ar_Booking :=
       {| br_Model := booking_Model b;
          br_BookingReference := booking_BookingReference b;
          br_UserID := booking_UserID b;
          br_ServiceID := booking_ServiceID b;
          br_Status := BookingStatus_string (booking_Status b);
          br_PaymentStatus := booking_PaymentStatus b;
          br_BookingType := booking_BookingType b;
          br_CompletionType := booking_CompletionType b;
          br_ScheduledDate := booking_ScheduledDate b;
          br_ScheduledTime := booking_ScheduledTime b;
          br_ScheduledEndTime := booking_ScheduledEndTime b;
          br_ActualStartTime := booking_ActualStartTime b;
          br_ActualEndTime := booking_ActualEndTime b;
          br_ActualDurationMinutes := booking_ActualDurationMinutes b;
          br_Address := booking_Address b;
          br_Description := booking_Description b;
          br_ContactPerson := booking_ContactPerson b;
          br_ContactPhone := booking_ContactPhone b;
          br_SpecialInstructions := booking_SpecialInstructions b;
          br_HoldExpiresAt := booking_HoldExpiresAt b;
          br_QuoteAmount := booking_QuoteAmount b;
          br_QuoteNotes := booking_QuoteNotes b;
          br_QuoteProvidedBy := booking_QuoteProvidedBy b;
          br_QuoteProvidedAt := booking_QuoteProvidedAt b;
          br_QuoteAcceptedAt := booking_QuoteAcceptedAt b;
          br_QuoteExpiresAt := booking_QuoteExpiresAt b;
          br_User :=
            {| ur_ID := user_ID u;
               ur_Name := user_Name u;
               ur_Email := user_Email u;
               (* Phone is intentionally excluded for privacy *)
               ur_UserType := user_UserType u;
               ur_Avatar := user_Avatar u;
               ur_Gender := user_Gender u;
               ur_IsActive := user_IsActive u;
               ur_LastLoginAt := user_LastLoginAt u;
               ur_RoleApplicationStatus := user_RoleApplicationStatus u;
               ur_ApplicationDate := user_ApplicationDate u;
               ur_ApprovalDate := user_ApprovalDate u;
               ur_WalletBalance := user_WalletBalance u;
               ur_SubscriptionID := user_SubscriptionID u;
               ur_Subscription := None;
               ur_HasActiveSubscription := user_HasActiveSubscription u;
               ur_SubscriptionExpiryDate := user_SubscriptionExpiryDate u;
               ur_NotificationSettings := None |};
          br_Service := booking_Service b |};
     ar_Worker := wa_Worker assignment;
     ar_AssignedByUser := wa_AssignedByUser assignment |}.

(* ------------------------------------------------------------------ *)
(** ** Field updates performed by the operations *)

(** Accept: Status, AcceptedAt, AcceptanceNotes. *)
Definition wa_accept (a : WorkerAssignment) (now : Time) (notes : string)
    : WorkerAssignment :=
  {| wa_Model := wa_Model a; wa_BookingID := wa_BookingID a;
     wa_WorkerID := wa_WorkerID a; wa_AssignedBy := wa_AssignedBy a;
     wa_Status := AssignmentStatusAccepted; wa_AssignedAt := wa_AssignedAt a;
     wa_AcceptedAt := Some now; wa_RejectedAt := wa_RejectedAt a;
     wa_StartedAt := wa_StartedAt a; wa_CompletedAt := wa_CompletedAt a;
     wa_AssignmentNotes := wa_AssignmentNotes a; wa_AcceptanceNotes := notes;
     wa_RejectionNotes := wa_RejectionNotes a;
     wa_RejectionReason := wa_RejectionReason a;
     wa_Booking := wa_Booking a; wa_Worker := wa_Worker a;
     wa_AssignedByUser := wa_AssignedByUser a |}.

(** Reject: Status, RejectedAt, RejectionReason, RejectionNotes. *)
Definition wa_reject (a : WorkerAssignment) (now : Time) (reason notes : string)
    : WorkerAssignment :=
  {| wa_Model := wa_Model a; wa_BookingID := wa_BookingID a;
     wa_WorkerID := wa_WorkerID a; wa_AssignedBy := wa_AssignedBy a;
     wa_Status := AssignmentStatusRejected; wa_AssignedAt := wa_AssignedAt a;
     wa_AcceptedAt := wa_AcceptedAt a; wa_RejectedAt := Some now;
     wa_StartedAt := wa_StartedAt a; wa_CompletedAt := wa_CompletedAt a;
     wa_AssignmentNotes := wa_AssignmentNotes a;
     wa_AcceptanceNotes := wa_AcceptanceNotes a;
     wa_RejectionNotes := notes; wa_RejectionReason := reason;
     wa_Booking := wa_Booking a; wa_Worker := wa_Worker a;
     wa_AssignedByUser := wa_AssignedByUser a |}.

(** Start: Status, StartedAt. *)
Definition wa_start (a : WorkerAssignment) (now : Time) : WorkerAssignment :=
  {| wa_Model := wa_Model a; wa_BookingID := wa_BookingID a;
     wa_WorkerID := wa_WorkerID a; wa_AssignedBy := wa_AssignedBy a;
     wa_Status := AssignmentStatusInProgress; wa_AssignedAt := wa_AssignedAt a;
     wa_AcceptedAt := wa_AcceptedAt a; wa_RejectedAt := wa_RejectedAt a;
     wa_StartedAt := Some now; wa_CompletedAt := wa_CompletedAt a;
     wa_AssignmentNotes := wa_AssignmentNotes a;
     wa_AcceptanceNotes := wa_AcceptanceNotes a;
     wa_RejectionNotes := wa_RejectionNotes a;
     wa_RejectionReason := wa_RejectionReason a;
     wa_Booking := wa_Booking a; wa_Worker := wa_Worker a;
     wa_AssignedByUser := wa_AssignedByUser a |}.

(** Complete: Status, CompletedAt. *)
Definition wa_complete (a : WorkerAssignment) (now : Time) : WorkerAssignment :=
  {| wa_Model := wa_Model a; wa_BookingID := wa_BookingID a;
     wa_WorkerID := wa_WorkerID a; wa_AssignedBy := wa_AssignedBy a;
     wa_Status := AssignmentStatusCompleted; wa_AssignedAt := wa_AssignedAt a;
     wa_AcceptedAt := wa_AcceptedAt a; wa_RejectedAt := wa_RejectedAt a;
     wa_StartedAt := wa_StartedAt a; wa_CompletedAt := Some now;
     wa_AssignmentNotes := wa_AssignmentNotes a;
     wa_AcceptanceNotes := wa_AcceptanceNotes a;
     wa_RejectionNotes := wa_RejectionNotes a;
     wa_RejectionReason := wa_RejectionReason a;
     wa_Booking := wa_Booking a; wa_Worker := wa_Worker a;
     wa_AssignedByUser := wa_AssignedByUser a |}.

(** The four booking columns the service writes:
    Status, ActualStartTime, ActualEndTime, ActualDurationMinutes. *)
Definition booking_set (b : Booking) (st : BookingStatus)
    (start end_ : option Time) (dur : option Z) : Booking :=
  {| booking_Model := booking_Model b;
     booking_BookingReference := booking_BookingReference b;
     booking_UserID := booking_UserID b;
     booking_ServiceID := booking_ServiceID b;
     booking_Status := st;
     booking_PaymentStatus := booking_PaymentStatus b;
     booking_BookingType := booking_BookingType b;
     booking_CompletionType := booking_CompletionType b;
     booking_ScheduledDate := booking_ScheduledDate b;
     booking_ScheduledTime := booking_ScheduledTime b;
     booking_ScheduledEndTime := booking_ScheduledEndTime b;
     booking_ActualStartTime := start;
     booking_ActualEndTime := end_;
     booking_ActualDurationMinutes := dur;
     booking_Address := booking_Address b;
     booking_Description := booking_Description b;
     booking_ContactPerson := booking_ContactPerson b;
     booking_ContactPhone := booking_ContactPhone b;
     booking_SpecialInstructions := booking_SpecialInstructions b;
     booking_HoldExpiresAt := booking_HoldExpiresAt b;
     booking_QuoteAmount := booking_QuoteAmount b;
     booking_QuoteNotes := booking_QuoteNotes b;
     booking_QuoteProvidedBy := booking_QuoteProvidedBy b;
     booking_QuoteProvidedAt := booking_QuoteProvidedAt b;
     booking_QuoteAcceptedAt := booking_QuoteAcceptedAt b;
     booking_QuoteExpiresAt := booking_QuoteExpiresAt b;
     booking_User := booking_User b;
     booking_Service := booking_Service b |}.

Definition booking_with_status (b : Booking) (st : BookingStatus) : Booking :=
  booking_set b st (booking_ActualStartTime b) (booking_ActualEndTime b)
    (booking_ActualDurationMinutes b).

(* ------------------------------------------------------------------ *)
(** ** Time arithmetic *)

(** time.Minute in nanoseconds. *)
Definition Minute : Z := 60000000000.

(** The bounds of a 64-bit int, and of time.Duration. *)
Definition int64_min : Z := (- 2 ^ 63)%Z.
Definition int64_max : Z := (2 ^ 63 - 1)%Z.

(** time.Time.Sub: the difference in nanoseconds, saturated to the
    Duration range. *)
Definition time_Sub (t u : Time) : Z :=
  let d := (t - u)%Z in
  if Z.ltb int64_max d then int64_max
  else if Z.ltb d int64_min then int64_min
  else d.

(** float64, as the Standard Library's specification of IEEE 754
    binary64 (53-bit significand, exponents up to 1024), with rounding to
    nearest, ties to even. *)
Definition float64 : Type := SpecFloat.spec_float.
Definition f64_prec : Z := 53.
Definition f64_emax : Z := 1024.

(** float64(i) for an integer i. *)
Definition float64_of_int (i : Z) : float64 :=
  SpecFloat.binary_normalize f64_prec f64_emax i 0 false.

Definition f64_add : float64 -> float64 -> float64 := SpecFloat.SFadd f64_prec f64_emax.
Definition f64_div : float64 -> float64 -> float64 := SpecFloat.SFdiv f64_prec f64_emax.

(** time.Duration.Minutes, from Go's time package:
      min := d / Minute
      nsec := d % Minute
      return float64(min) + float64(nsec)/(60*1e9)
    where / and % on Duration truncate toward zero. *)
Definition Duration_Minutes (d : Z) : float64 :=
  f64_add (float64_of_int (Z.quot d Minute))
    (f64_div (float64_of_int (Z.rem d Minute)) (float64_of_int 60000000000)).

(** int(f) for a float64 f: truncation toward zero.  A value out of the
    int range, an infinity or a NaN gives the minimum int, as on amd64. *)
Definition int_of_float64 (f : float64) : Z :=
  match f with
  | SpecFloat.S754_zero _ => 0
  | SpecFloat.S754_finite s m e =>
      let v := if Z.leb 0 e then Z.shiftl (Zpos m) e else Z.shiftr (Zpos m) (- e) in
      let z := if s then (- v)%Z else v in
      if andb (Z.leb int64_min z) (Z.leb z int64_max) then z else int64_min
  | _ => int64_min
  end.

(** [int(now.Sub(start).Minutes())] *)
Definition duration_minutes (now start : Time) : Z :=
  int_of_float64 (Duration_Minutes (time_Sub now start)).

(** A float64 that is not a positive finite number. *)
Definition not_positive (f : float64) : Prop :=
  match f with SpecFloat.S754_finite false _ _ => False | _ => True end.

(** Earnings of a completed booking, as computed in CompleteAssignment. *)
Definition completion_earnings (booking : Booking) : Amount :=
  match booking_QuoteAmount booking with
  | Some q => q
  | None =>
      match service_Price (booking_Service booking) with
      | Some p => p
      | None => 0%Q
      end
  end.

(* ------------------------------------------------------------------ *)
(** ** World, repository outcomes and side-effect outcomes *)

(** Observable effects besides the two tables: log lines, side-effect
    calls made inline, and goroutines dispatched with [go]. *)
Inductive Event :=
| EvLog (msg : string)
| EvChatRoomCreated (bookingID : nat)
| EvChatRoomClosed (bookingID : nat) (reason : string)
| EvCallMaskingEnable (bookingID : nat)
| EvCallMaskingDisable (bookingID : nat)
| EvNotification (kind : string) (assignmentID bookingID : nat)
| EvTrackingStarted (workerID assignmentID : nat)
| EvTrackingStopped (workerID assignmentID : nat)
| EvIncrementCompletedJob (workerID : nat) (earnings : Amount).

(** The worker_assignments and bookings tables, keyed by primary key, and
    the trace of events so far. *)
Record World := {
  w_assignments : gmap nat WorkerAssignment;
  w_bookings : gmap nat Booking;
  w_trace : list Event;
}.

(** Outcome of the repository writes and of the booking read besides
    a missing row (database errors). *)
Record RepoOutcomes := {
  ro_AssignmentUpdateOk : bool;
  ro_BookingGetOk : bool;
  ro_BookingUpdateOk : bool;
}.

(** Outcome of each side effect the operations invoke inline. *)
Record SideEffectOutcomes := {
  se_ChatCreateOk : bool;
  se_ChatCloseOk : bool;
  se_LocationTrackingService : bool;  (* was.locationTrackingService != nil *)
  se_TrackingStartOk : bool;
  se_TrackingStopOk : bool;
  se_WorkerByUserID : nat -> option Worker;
  se_IncrementOk : bool;
}.

(* ------------------------------------------------------------------ *)
(** ** A state / error monad for the service methods *)

Inductive Outcome (A : Type) :=
| Ok (a : A)
| Fail (msg : string).
Arguments Ok {A} a.
Arguments Fail {A} msg.

Definition M (A : Type) := World -> Outcome A * World.

Definition ret {A} (x : A) : M A := fun w => (Ok x, w).

Definition bind {A B} (m : M A) (k : A -> M B) : M B :=
  fun w => match m w with
           | (Ok x, w') => k x w'
           | (Fail e, w') => (Fail e, w')
           end.

Notation "'let*' x ':=' m 'in' k" := (bind m (fun x => k))
  (at level 200, x name, m at level 100, k at level 200).

(** [return nil, errors.New(msg)] *)
Definition fail {A} (msg : string) : M A := fun w => (Fail msg, w).

Definition emit (e : Event) : M unit :=
  fun w => (Ok tt, {| w_assignments := w_assignments w;
                      w_bookings := w_bookings w;
                      w_trace := w_trace w ++ [e] |}).

(** [logrus.Errorf(...)] followed by [return nil, errors.New(msg)] *)
Definition log_fail {A} (log msg : string) : M A :=
  let* _ := emit (EvLog log) in fail msg.

Definition check (b : bool) (msg : string) : M unit :=
  if b then ret tt else fail msg.

Definition msg_not_found := "assignment not found".
Definition msg_unauthorized := "unauthorized access to assignment".
Definition msg_booking_update := "failed to update booking status".

(** workerAssignmentRepo.GetByID *)
Definition getAssignment (assignmentID : nat) : M WorkerAssignment :=
  fun w => match w_assignments w !! assignmentID with
           | Some a => (Ok a, w)
           | None => (Fail msg_not_found, w)
           end.

(** workerAssignmentRepo.Update: saves the row under its primary key. *)
Definition updateAssignment (R : RepoOutcomes) (a : WorkerAssignment)
    (log msg : string) : M unit :=
  if ro_AssignmentUpdateOk R then
    fun w => (Ok tt, {| w_assignments := <[gm_ID (wa_Model a) := a]> (w_assignments w);
                        w_bookings := w_bookings w;
                        w_trace := w_trace w |})
  else log_fail log msg.

(** bookingRepo.GetByID *)
Definition getBooking (R : RepoOutcomes) (bookingID : nat) : M Booking :=
  fun w =>
    match (if ro_BookingGetOk R then w_bookings w !! bookingID else None) with
    | Some b => (Ok b, w)
    | None => log_fail "Failed to get booking for assignment" msg_booking_update w
    end.

(** bookingRepo.Update *)
Definition updateBooking (R : RepoOutcomes) (b : Booking) : M unit :=
  if ro_BookingUpdateOk R then
    fun w => (Ok tt, {| w_assignments := w_assignments w;
                        w_bookings := <[gm_ID (booking_Model b) := b]> (w_bookings w);
                        w_trace := w_trace w |})
  else log_fail "Failed to update booking status" msg_booking_update.

(** The two guards every mutating operation runs after the load. *)
Definition checkOwner (assignment : WorkerAssignment) (workerID : nat) : M unit :=
  check (Nat.eqb (wa_WorkerID assignment) workerID) msg_unauthorized.

Definition checkStatus (assignment : WorkerAssignment) (expected : AssignmentStatus)
    (msg : string) : M unit :=
  check (AssignmentStatus_eqb (wa_Status assignment) expected) msg.

(* ------------------------------------------------------------------ *)
(** ** The service methods *)

Section Service.

Variable R : RepoOutcomes.
Variable E : SideEffectOutcomes.
(** [now := time.Now()] *)
Variable now : Time.

(** The side effects of AcceptAssignment, after the booking write
    (chat room, call masking, notification goroutines). *)
Definition acceptSideEffects (assignmentID : nat) (assignment : WorkerAssignment)
    : M unit :=
  let* _ := (if se_ChatCreateOk E
             then emit (EvChatRoomCreated (wa_BookingID assignment))
             else emit (EvLog "Failed to create chat room for booking")) in
  let* _ := emit (EvCallMaskingEnable (wa_BookingID assignment)) in
  let* _ := emit (EvNotification "worker_assignment:accepted"
                    assignmentID (wa_BookingID assignment)) in
  emit (EvNotification "assignment_accepted" assignmentID (wa_BookingID assignment)).

(** AcceptAssignment *)
Definition AcceptAssignment (assignmentID workerID : nat) (notes : string)
    : M WorkerAssignment :=
  let* assignment := getAssignment assignmentID in
  let* _ := checkOwner assignment workerID in
  let* _ := checkStatus assignment AssignmentStatusAssigned
              "assignment cannot be accepted in current status" in
  let assignment := wa_accept assignment now notes in
  let* _ := updateAssignment R assignment "Failed to accept assignment"
              "failed to accept assignment" in
  let* booking := getBooking R (wa_BookingID assignment) in
  let booking := booking_with_status booking BookingStatusConfirmed in
  let* _ := updateBooking R booking in
  let* _ := acceptSideEffects assignmentID assignment in
  ret assignment.

(** The side effects of RejectAssignment (goroutines only). *)
Definition rejectSideEffects (assignmentID : nat) (assignment : WorkerAssignment)
    : M unit :=
  let* _ := emit (EvCallMaskingDisable (wa_BookingID assignment)) in
  let* _ := emit (EvNotification "worker_assignment_rejected"
                    assignmentID (wa_BookingID assignment)) in
  emit (EvNotification "assignment_rejected" assignmentID (wa_BookingID assignment)).

(** RejectAssignment *)
Definition RejectAssignment (assignmentID workerID : nat) (reason notes : string)
    : M WorkerAssignment :=
  let* assignment := getAssignment assignmentID in
  let* _ := checkOwner assignment workerID in
  let* _ := checkStatus assignment AssignmentStatusAssigned
              "assignment cannot be rejected in current status" in
  let assignment := wa_reject assignment now reason notes in
  let* _ := updateAssignment R assignment "Failed to reject assignment"
              "failed to reject assignment" in
  let* booking := getBooking R (wa_BookingID assignment) in
  let booking := booking_with_status booking BookingStatusConfirmed in
  let* _ := updateBooking R booking in
  let* _ := rejectSideEffects assignmentID assignment in
  ret assignment.

(** The side effects of StartAssignment (location tracking, notification). *)
Definition startSideEffects (assignmentID workerID : nat) (assignment : WorkerAssignment)
    : M unit :=
  let* _ := (if se_LocationTrackingService E then
               if se_TrackingStartOk E
               then emit (EvTrackingStarted workerID assignmentID)
               else emit (EvLog "Failed to start location tracking for assignment")
             else ret tt) in
  emit (EvNotification "worker_started" assignmentID (wa_BookingID assignment)).

(** StartAssignment *)
Definition StartAssignment (assignmentID workerID : nat) (notes : string)
    : M WorkerAssignment :=
  let* assignment := getAssignment assignmentID in
  let* _ := checkOwner assignment workerID in
  let* _ := checkStatus assignment AssignmentStatusAccepted
              "assignment cannot be started in current status" in
  let assignment := wa_start assignment now in
  let* _ := updateAssignment R assignment "Failed to start assignment"
              "failed to start assignment" in
  let* booking := getBooking R (wa_BookingID assignment) in
  let booking := booking_set booking BookingStatusInProgress (Some now)
                   (booking_ActualEndTime booking)
                   (booking_ActualDurationMinutes booking) in
  let* _ := updateBooking R booking in
  let* _ := startSideEffects assignmentID workerID assignment in
  ret assignment.

(** The side effects of CompleteAssignment, after the booking write: call
    masking, worker statistics, chat room, materials/photos logging,
    location tracking, notification. *)
Definition completeSideEffects (assignmentID workerID : nat)
    (assignment : WorkerAssignment) (booking : Booking)
    (materialsUsed photos : list string) : M unit :=
  let* _ := emit (EvCallMaskingDisable (wa_BookingID assignment)) in
  (* Update worker statistics *)
  let* _ := (match se_WorkerByUserID E (wa_WorkerID assignment) with
             | None => emit (EvLog "Failed to get worker for assignment")
             | Some worker =>
                 let earnings := completion_earnings booking in
                 let* _ := emit (EvIncrementCompletedJob (worker_ID worker) earnings) in
                 if se_IncrementOk E
                 then emit (EvLog "Updated worker statistics for assignment")
                 else emit (EvLog "Failed to update worker statistics for assignment")
             end) in
  let* _ := (if se_ChatCloseOk E
             then emit (EvChatRoomClosed (wa_BookingID assignment) "Service completed")
             else emit (EvLog "Failed to close chat room for booking")) in
  let* _ := (match materialsUsed with
             | [] => ret tt
             | _ => emit (EvLog "Materials used for assignment")
             end) in
  let* _ := (match photos with
             | [] => ret tt
             | _ => emit (EvLog "Photos uploaded for assignment")
             end) in
  let* _ := (if se_LocationTrackingService E then
               if se_TrackingStopOk E
               then emit (EvTrackingStopped workerID assignmentID)
               else emit (EvLog "Failed to stop location tracking for assignment")
             else ret tt) in
  emit (EvNotification "worker_completed" assignmentID (wa_BookingID assignment)).

(** CompleteAssignment *)
Definition CompleteAssignment (assignmentID workerID : nat) (notes : string)
    (materialsUsed photos : list string) : M WorkerAssignment :=
  let* assignment := getAssignment assignmentID in
  let* _ := checkOwner assignment workerID in
  let* _ := checkStatus assignment AssignmentStatusInProgress
              "assignment cannot be completed in current status" in
  let assignment := wa_complete assignment now in
  let* _ := updateAssignment R assignment "Failed to complete assignment"
              "failed to complete assignment" in
  let* booking := getBooking R (wa_BookingID assignment) in
  (* Calculate actual duration if start time is available *)
  let duration :=
    match booking_ActualStartTime booking with
    | Some start => Some (duration_minutes now start)
    | None => booking_ActualDurationMinutes booking
    end in
  let booking := booking_set booking BookingStatusCompleted
                   (booking_ActualStartTime booking) (Some now) duration in
  let* _ := updateBooking R booking in
  let* _ := completeSideEffects assignmentID workerID assignment booking
              materialsUsed photos in
  ret assignment.

End Service.

(** The side-effect tails are reasoned about through their own lemmas. *)
Arguments acceptSideEffects : simpl never.
Arguments rejectSideEffects : simpl never.
Arguments startSideEffects : simpl never.
Arguments completeSideEffects : simpl never.

(** GetWorkerAssignment: a read, no projection. *)
Definition GetWorkerAssignment (assignmentID workerID : nat) : M WorkerAssignment :=
  let* assignment := getAssignment assignmentID in
  let* _ := checkOwner assignment workerID in
  ret assignment.

Record WorkerAssignmentFilters := {
  f_Status : string;
  f_Date : string;
  f_Page : nat;
  f_Limit : nat;
}.

Record Pagination := {
  p_Page : nat;
  p_Limit : nat;
  p_Total : nat;
  p_TotalPages : nat;
}.

(** GetWorkerAssignments, over the result of the repository query
    [workerAssignmentRepo.GetWorkerAssignments(workerID, repoFilters)]. *)
Definition GetWorkerAssignments
    (repo : nat -> WorkerAssignmentFilters -> Outcome (list WorkerAssignment * Pagination))
    (workerID : nat) (filters : WorkerAssignmentFilters)
    : Outcome (list WorkerAssignmentResponse * Pagination) :=
  match repo workerID filters with
  | Fail _ => Fail "failed to get worker assignments"
  | Ok (assignments, pagination) =>
      Ok (map convertToPrivacyProtectedResponse assignments,
          {| p_Page := p_Page pagination; p_Limit := p_Limit pagination;
             p_Total := p_Total pagination; p_TotalPages := p_TotalPages pagination |})
  end.

(* ------------------------------------------------------------------ *)
(** ** The mutating operations, uniformly *)

Inductive Operation :=
| OpAccept (notes : string)
| OpReject (reason notes : string)
| OpStart (notes : string)
| OpComplete (notes : string) (materialsUsed photos : list string).

Definition run_op (R : RepoOutcomes) (E : SideEffectOutcomes) (now : Time)
    (assignmentID workerID : nat) (op : Operation) : M WorkerAssignment :=
  match op with
  | OpAccept notes => AcceptAssignment R E now assignmentID workerID notes
  | OpReject reason notes => RejectAssignment R now assignmentID workerID reason notes
  | OpStart notes => StartAssignment R E now assignmentID workerID notes
  | OpComplete notes m p => CompleteAssignment R E now assignmentID workerID notes m p
  end.

(** The §4.1 table: required status, resulting assignment status, resulting
    booking status, and the state-check error message. *)
Definition op_pre (op : Operation) : AssignmentStatus :=
  match op with
  | OpAccept _ | OpReject _ _ => AssignmentStatusAssigned
  | OpStart _ => AssignmentStatusAccepted
  | OpComplete _ _ _ => AssignmentStatusInProgress
  end.

Definition op_post (op : Operation) : AssignmentStatus :=
  match op with
  | OpAccept _ => AssignmentStatusAccepted
  | OpReject _ _ => AssignmentStatusRejected
  | OpStart _ => AssignmentStatusInProgress
  | OpComplete _ _ _ => AssignmentStatusCompleted
  end.

Definition op_booking_post (op : Operation) : BookingStatus :=
  match op with
  | OpAccept _ | OpReject _ _ => BookingStatusConfirmed
  | OpStart _ => BookingStatusInProgress
  | OpComplete _ _ _ => BookingStatusCompleted
  end.

Definition op_state_error (op : Operation) : string :=
  match op with
  | OpAccept _ => "assignment cannot be accepted in current status"
  | OpReject _ _ => "assignment cannot be rejected in current status"
  | OpStart _ => "assignment cannot be started in current status"
  | OpComplete _ _ _ => "assignment cannot be completed in current status"
  end.

(* ------------------------------------------------------------------ *)
(** ** Timestamp invariants *)

Definition is_set (t : option Time) : bool :=
  match t with Some _ => true | None => false end.

(** §3: at most one of acceptedAt / rejectedAt is set; startedAt only if
    acceptedAt is set; completedAt only if startedAt is set. *)
Definition ts_invariant (a : WorkerAssignment) : bool :=
  negb (is_set (wa_AcceptedAt a) && is_set (wa_RejectedAt a)) &&
  implb (is_set (wa_StartedAt a)) (is_set (wa_AcceptedAt a)) &&
  implb (is_set (wa_CompletedAt a)) (is_set (wa_StartedAt a)).

(** The timestamps an assignment has in each status when it is created in
    [assigned] with none of them and moved only by the four operations. *)
Definition status_consistent (a : WorkerAssignment) : bool :=
  let acc := is_set (wa_AcceptedAt a) in
  let rej := is_set (wa_RejectedAt a) in
  let st := is_set (wa_StartedAt a) in
  let comp := is_set (wa_CompletedAt a) in
  match wa_Status a with
  | AssignmentStatusAssigned => negb acc && negb rej && negb st && negb comp
  | AssignmentStatusAccepted => acc && negb rej && negb st && negb comp
  | AssignmentStatusRejected => negb acc && rej && negb st && negb comp
  | AssignmentStatusInProgress => acc && negb rej && st && negb comp
  | AssignmentStatusCompleted => acc && negb rej && st && comp
  end.

(* ------------------------------------------------------------------ *)
(** ** Changing the booking owner's phone in a loaded assignment *)

Definition user_with_phone (u : User) (phone : string) : User :=
  {| user_ID := user_ID u; user_Name := user_Name u; user_Email := user_Email u;
     user_Phone := phone; user_UserType := user_UserType u;
     user_Avatar := user_Avatar u; user_Gender := user_Gender u;
     user_IsActive := user_IsActive u; user_LastLoginAt := user_LastLoginAt u;
     user_RoleApplicationStatus := user_RoleApplicationStatus u;
     user_ApplicationDate := user_ApplicationDate u;
     user_ApprovalDate := user_ApprovalDate u;
     user_WalletBalance := user_WalletBalance u;
     user_SubscriptionID := user_SubscriptionID u;
     user_Subscription := user_Subscription u;
     user_HasActiveSubscription := user_HasActiveSubscription u;
     user_SubscriptionExpiryDate := user_SubscriptionExpiryDate u |}.

Definition booking_with_user (b : Booking) (u : User) : Booking :=
  {| booking_Model := booking_Model b;
     booking_BookingReference := booking_BookingReference b;
     booking_UserID := booking_UserID b; booking_ServiceID := booking_ServiceID b;
     booking_Status := booking_Status b; booking_PaymentStatus := booking_PaymentStatus b;
     booking_BookingType := booking_BookingType b;
     booking_CompletionType := booking_CompletionType b;
     booking_ScheduledDate := booking_ScheduledDate b;
     booking_ScheduledTime := booking_ScheduledTime b;
     booking_ScheduledEndTime := booking_ScheduledEndTime b;
     booking_ActualStartTime := booking_ActualStartTime b;
     booking_ActualEndTime := booking_ActualEndTime b;
     booking_ActualDurationMinutes := booking_ActualDurationMinutes b;
     booking_Address := booking_Address b; booking_Description := booking_Description b;
     booking_ContactPerson := booking_ContactPerson b;
     booking_ContactPhone := booking_ContactPhone b;
     booking_SpecialInstructions := booking_SpecialInstructions b;
     booking_HoldExpiresAt := booking_HoldExpiresAt b;
     booking_QuoteAmount := booking_QuoteAmount b; booking_QuoteNotes := booking_QuoteNotes b;
     booking_QuoteProvidedBy := booking_QuoteProvidedBy b;
     booking_QuoteProvidedAt := booking_QuoteProvidedAt b;
     booking_QuoteAcceptedAt := booking_QuoteAcceptedAt b;
     booking_QuoteExpiresAt := booking_QuoteExpiresAt b;
     booking_User := u; booking_Service := booking_Service b |}.

(** The same loaded assignment, with [Booking.User.Phone] replaced. *)
Definition with_owner_phone (a : WorkerAssignment) (phone : string) : WorkerAssignment :=
  {| wa_Model := wa_Model a; wa_BookingID := wa_BookingID a;
     wa_WorkerID := wa_WorkerID a; wa_AssignedBy := wa_AssignedBy a;
     wa_Status := wa_Status a; wa_AssignedAt := wa_AssignedAt a;
     wa_AcceptedAt := wa_AcceptedAt a; wa_RejectedAt := wa_RejectedAt a;
     wa_StartedAt := wa_StartedAt a; wa_CompletedAt := wa_CompletedAt a;
     wa_AssignmentNotes := wa_AssignmentNotes a;
     wa_AcceptanceNotes := wa_AcceptanceNotes a;
     wa_RejectionNotes := wa_RejectionNotes a;
     wa_RejectionReason := wa_RejectionReason a;
     wa_Booking := booking_with_user (wa_Booking a)
                     (user_with_phone (booking_User (wa_Booking a)) phone);
     wa_Worker := wa_Worker a; wa_AssignedByUser := wa_AssignedByUser a |}.

(* ------------------------------------------------------------------ *)
(** ** Classifying the events of an operation *)

Definition is_log (e : Event) : bool :=
  match e with EvLog _ => true | _ => false end.

Definition is_tracking (e : Event) : bool :=
  match e with
  | EvTrackingStarted _ _ | EvTrackingStopped _ _ => true
  | _ => false
  end.

Definition is_increment (e : Event) : bool :=
  match e with EvIncrementCompletedJob _ _ => true | _ => false end.

(** The notification goroutine each operation dispatches. *)
Definition op_notification (op : Operation) : string :=
  match op with
  | OpAccept _ => "assignment_accepted"
  | OpReject _ _ => "assignment_rejected"
  | OpStart _ => "worker_started"
  | OpComplete _ _ _ => "worker_completed"
  end.

(** The call-masking goroutine each operation dispatches, if any. *)
Definition op_call_masking (op : Operation) (bookingID : nat) : option Event :=
  match op with
  | OpAccept _ => Some (EvCallMaskingEnable bookingID)
  | OpReject _ _ | OpComplete _ _ _ => Some (EvCallMaskingDisable bookingID)
  | OpStart _ => None
  end.

(* ------------------------------------------------------------------ *)
(** ** The notification helpers *)

(** Calls made by sendWorkerAssignmentNotification,
    sendWorkerStartedNotification and sendWorkerCompletedNotification:
    log lines and calls on the notification integration service, with the
    booking ID, the worker's user ID and the booking's service ID. *)
Inductive NotifyCall :=
| NcWarn (msg : string)
| NcLog (msg : string)
| NcNotifyWorkerAssigned (bookingID workerUserID serviceID : nat)
| NcNotifyWorkerAssignedToWork (workerUserID bookingID serviceID : nat)
| NcNotifyWorkerStarted (bookingID workerUserID serviceID : nat)
| NcNotifyWorkerCompleted (bookingID workerUserID serviceID : nat).

Definition is_notify (c : NotifyCall) : bool :=
  match c with NcWarn _ | NcLog _ => false | _ => true end.

Record NotificationEnv := {
  ne_IntegrationService : bool;       (* GetGlobalNotificationIntegrationService() != nil *)
  ne_UserByID : nat -> option User;   (* userRepo.FindByID *)
  ne_SendOk : NotifyCall -> bool;     (* the call returns no error *)
}.

(** [err = notificationService.NotifyX(...); if err != nil { logrus.Errorf } ] *)
Definition notify_call (N : NotificationEnv) (c : NotifyCall) (log : string)
    : list NotifyCall :=
  c :: (if ne_SendOk N c then [] else [NcLog log]).

(** The common prefix of the three helpers: the integration service, the
    booking (bookingRepo.GetByID) and the worker user (userRepo.FindByID). *)
Definition with_booking_and_worker (N : NotificationEnv) (R : RepoOutcomes) (w : World)
    (assignment : WorkerAssignment) (k : Booking -> User -> list NotifyCall)
    : list NotifyCall :=
  if ne_IntegrationService N then
    match (if ro_BookingGetOk R then w_bookings w !! wa_BookingID assignment else None) with
    | None => [NcLog "Failed to get booking for notification"]
    | Some booking =>
        match ne_UserByID N (wa_WorkerID assignment) with
        | None => [NcLog "Failed to get worker for notification"]
        | Some worker => k booking worker
        end
    end
  else [NcWarn "Notification integration service not available"].

Definition sendWorkerAssignmentNotification (N : NotificationEnv) (R : RepoOutcomes)
    (w : World) (assignment : WorkerAssignment) (status : string) : list NotifyCall :=
  with_booking_and_worker N R w assignment (fun booking worker =>
    (notify_call N (NcNotifyWorkerAssigned (gm_ID (booking_Model booking)) (user_ID worker)
                      (service_ID (booking_Service booking)))
       "Failed to send worker assignment notification" ++
     notify_call N (NcNotifyWorkerAssignedToWork (user_ID worker)
                      (gm_ID (booking_Model booking)) (service_ID (booking_Service booking)))
       "Failed to send worker assignment notification to worker")%list).

Definition sendWorkerStartedNotification (N : NotificationEnv) (R : RepoOutcomes)
    (w : World) (assignment : WorkerAssignment) : list NotifyCall :=
  with_booking_and_worker N R w assignment (fun booking worker =>
    notify_call N (NcNotifyWorkerStarted (gm_ID (booking_Model booking)) (user_ID worker)
                     (service_ID (booking_Service booking)))
      "Failed to send worker started notification").

Definition sendWorkerCompletedNotification (N : NotificationEnv) (R : RepoOutcomes)
    (w : World) (assignment : WorkerAssignment) : list NotifyCall :=
  with_booking_and_worker N R w assignment (fun booking worker =>
    notify_call N (NcNotifyWorkerCompleted (gm_ID (booking_Model booking)) (user_ID worker)
                     (service_ID (booking_Service booking)))
      "Failed to send worker completed notification").

(* ------------------------------------------------------------------ *)
(** ** AcceptAssignment as interleavable steps *)

(** AcceptAssignment cut at its repository calls, each of which is atomic;
    between two of them another request may run.  The checks and the
    in-memory mutation run with the load, the goroutines with the last step. *)
Inductive AcceptPhase :=
| AcceptLoad
| AcceptWriteAssignment (assignment : WorkerAssignment)
| AcceptLoadBooking (assignment : WorkerAssignment)
| AcceptWriteBooking (assignment : WorkerAssignment) (booking : Booking)
| AcceptFanOut (assignment : WorkerAssignment)
| AcceptDone (result : Outcome WorkerAssignment).

Definition continue_with {A : Type} (m : M A) (k : A -> AcceptPhase) (w : World)
    : AcceptPhase * World :=
  match m w with
  | (Ok x, w') => (k x, w')
  | (Fail e, w') => (AcceptDone (Fail e), w')
  end.

Definition accept_step (R : RepoOutcomes) (E : SideEffectOutcomes) (now : Time)
    (assignmentID workerID : nat) (notes : string) (p : AcceptPhase) (w : World)
    : AcceptPhase * World :=
  match p with
  | AcceptLoad =>
      continue_with
        (let* assignment := getAssignment assignmentID in
         let* _ := checkOwner assignment workerID in
         let* _ := checkStatus assignment AssignmentStatusAssigned
                     "assignment cannot be accepted in current status" in
         ret (wa_accept assignment now notes))
        AcceptWriteAssignment w
  | AcceptWriteAssignment a =>
      continue_with (updateAssignment R a "Failed to accept assignment"
                       "failed to accept assignment")
        (fun _ => AcceptLoadBooking a) w
  | AcceptLoadBooking a =>
      continue_with (getBooking R (wa_BookingID a))
        (fun b => AcceptWriteBooking a (booking_with_status b BookingStatusConfirmed)) w
  | AcceptWriteBooking a b =>
      continue_with (updateBooking R b) (fun _ => AcceptFanOut a) w
  | AcceptFanOut a =>
      continue_with (acceptSideEffects E assignmentID a) (fun _ => AcceptDone (Ok a)) w
  | AcceptDone r => (AcceptDone r, w)
  end.

(** One thread run alone for [n] steps. *)
Fixpoint run_phases (step : AcceptPhase -> World -> AcceptPhase * World)
    (n : nat) (p : AcceptPhase) (w : World) : AcceptPhase * World :=
  match n with
  | O => (p, w)
  | S n' => let '(p', w') := step p w in run_phases step n' p' w'
  end.

(** Two threads on one world; [true] in the schedule runs a step of the
    first, [false] a step of the second. *)
Fixpoint interleave (step1 step2 : AcceptPhase -> World -> AcceptPhase * World)
    (sched : list bool) (p1 p2 : AcceptPhase) (w : World)
    : AcceptPhase * AcceptPhase * World :=
  match sched with
  | [] => (p1, p2, w)
  | true :: sched' =>
      let '(p1', w') := step1 p1 w in interleave step1 step2 sched' p1' p2 w'
  | false :: sched' =>
      let '(p2', w') := step2 p2 w in interleave step1 step2 sched' p1 p2' w'
  end.

(** Both requests load the assignment before either writes it. *)
Definition lockstep_schedule : list bool :=
  [true; false; true; false; true; false; true; false; true; false].

Definition accepted_fan_outs (bookingID : nat) (tr : list Event) : nat :=
  length (List.filter (fun e => match e with
                           | EvCallMaskingEnable b => Nat.eqb b bookingID
                           | _ => false
                           end) tr).

(* ------------------------------------------------------------------ *)
(** ** Sample data *)

Definition sample_model (id : nat) : GormModel :=
  {| gm_ID := id; gm_CreatedAt := 0; gm_UpdatedAt := 0 |}.

Definition sample_user (phone : string) : User :=
  {| user_ID := 3; user_Name := "Asha"; user_Email := Some "asha@example.com";
     user_Phone := phone; user_UserType := "normal"; user_Avatar := "";
     user_Gender := "female"; user_IsActive := true; user_LastLoginAt := None;
     user_RoleApplicationStatus := "none"; user_ApplicationDate := None;
     user_ApprovalDate := None; user_WalletBalance := 0%Q;
     user_SubscriptionID := Some 4%nat;
     user_Subscription := Some {| us_ID := 4; us_PlanName := "gold"; us_Status := "active" |};
     user_HasActiveSubscription := true; user_SubscriptionExpiryDate := None |}.

Definition sample_booking (start : option Time) (quote price : option Amount) : Booking :=
  {| booking_Model := sample_model 10; booking_BookingReference := "BK10";
     booking_UserID := 3; booking_ServiceID := 5;
     booking_Status := BookingStatusConfirmed; booking_PaymentStatus := "paid";
     booking_BookingType := "regular"; booking_CompletionType := None;
     booking_ScheduledDate := None; booking_ScheduledTime := None;
     booking_ScheduledEndTime := None; booking_ActualStartTime := start;
     booking_ActualEndTime := None; booking_ActualDurationMinutes := None;
     booking_Address := "12 Park Street"; booking_Description := "";
     booking_ContactPerson := "Asha"; booking_ContactPhone := "";
     booking_SpecialInstructions := ""; booking_HoldExpiresAt := None;
     booking_QuoteAmount := quote; booking_QuoteNotes := "";
     booking_QuoteProvidedBy := None; booking_QuoteProvidedAt := None;
     booking_QuoteAcceptedAt := None; booking_QuoteExpiresAt := None;
     booking_User := sample_user "+919812345678";
     booking_Service := {| service_ID := 5; service_Name := "Plumbing";
                           service_Price := price |} |}.

(** Assignment 1 of booking 10, owned by worker user 7. *)
Definition sample_assignment (st : AssignmentStatus)
    (acc rej start comp : option Time) : WorkerAssignment :=
  {| wa_Model := sample_model 1; wa_BookingID := 10; wa_WorkerID := 7;
     wa_AssignedBy := 2; wa_Status := st; wa_AssignedAt := 0;
     wa_AcceptedAt := acc; wa_RejectedAt := rej; wa_StartedAt := start;
     wa_CompletedAt := comp; wa_AssignmentNotes := ""; wa_AcceptanceNotes := "";
     wa_RejectionNotes := ""; wa_RejectionReason := "";
     wa_Booking := sample_booking None None None;
     wa_Worker := {| worker_ID := 70; worker_UserID := 7 |};
     wa_AssignedByUser := sample_user "+910000000000" |}.

Definition sample_world (a : WorkerAssignment) (bookings : gmap nat Booking) : World :=
  {| w_assignments := {[1%nat := a]}; w_bookings := bookings; w_trace := [] |}.

(** An assigned assignment whose booking row is missing. *)
Definition world_missing_booking : World :=
  sample_world (sample_assignment AssignmentStatusAssigned None None None None) ∅.

(** An in-progress assignment with its booking row (booking 10). *)
Definition world_in_progress (start : option Time) (quote price : option Amount) : World :=
  sample_world (sample_assignment AssignmentStatusInProgress (Some 0%Z) None start None)
    {[10%nat := sample_booking start quote price]}.

(** An assigned assignment with its booking row (booking 10). *)
Definition world_assigned : World :=
  sample_world (sample_assignment AssignmentStatusAssigned None None None None)
    {[10%nat := sample_booking None None None]}.

(** An accepted assignment with its booking row (booking 10). *)
Definition world_accepted : World :=
  sample_world (sample_assignment AssignmentStatusAccepted (Some 50%Z) None None None)
    {[10%nat := sample_booking None None None]}.

(** Repositories whose assignment update fails. *)
Definition repo_update_failing : RepoOutcomes :=
  {| ro_AssignmentUpdateOk := false; ro_BookingGetOk := true; ro_BookingUpdateOk := true |}.

Definition repo_ok : RepoOutcomes :=
  {| ro_AssignmentUpdateOk := true; ro_BookingGetOk := true; ro_BookingUpdateOk := true |}.

Definition effects_ok : SideEffectOutcomes :=
  {| se_ChatCreateOk := true; se_ChatCloseOk := true;
     se_LocationTrackingService := true; se_TrackingStartOk := true;
     se_TrackingStopOk := true;
     se_WorkerByUserID := fun _ => Some {| worker_ID := 70; worker_UserID := 7 |};
     se_IncrementOk := true |}.

(** Side effects that all succeed, except that no worker record is found. *)
Definition effects_no_worker : SideEffectOutcomes :=
  {| se_ChatCreateOk := true; se_ChatCloseOk := true;
     se_LocationTrackingService := true; se_TrackingStartOk := true;
     se_TrackingStopOk := true; se_WorkerByUserID := fun _ => None;
     se_IncrementOk := true |}.

Definition effects_failing : SideEffectOutcomes :=
  {| se_ChatCreateOk := false; se_ChatCloseOk := false;
     se_LocationTrackingService := true; se_TrackingStartOk := false;
     se_TrackingStopOk := false;
     se_WorkerByUserID := fun _ => Some {| worker_ID := 70; worker_UserID := 7 |};
     se_IncrementOk := false |}.

Definition sample_pagination : Pagination :=
  {| p_Page := 1; p_Limit := 10; p_Total := 1; p_TotalPages := 1 |}.

Definition sample_filters : WorkerAssignmentFilters :=
  {| f_Status := ""; f_Date := ""; f_Page := 1; f_Limit := 10 |}.

(** A computation that always returns [Ok tt] and only appends to the trace. *)
Definition keeps_tables (m : M unit) : Prop :=
  forall w, exists tr,
    m w = (Ok tt, {| w_assignments := w_assignments w; w_bookings := w_bookings w;
                     w_trace := w_trace w ++ tr |}).

(* ------------------------------------------------------------------ *)
(** ** Proof automation *)

Lemma AssignmentStatus_eqb_true (x y : AssignmentStatus) :
  AssignmentStatus_eqb x y = true -> x = y.
Proof. destruct x, y; cbn; congruence. Qed.

Lemma keeps_tables_ret : keeps_tables (ret tt).
Proof. intros w. exists []. rewrite app_nil_r. destruct w; reflexivity. Qed.

Lemma keeps_tables_emit (e : Event) : keeps_tables (emit e).
Proof. intros w. exists [e]. reflexivity. Qed.

Lemma keeps_tables_bind (m : M unit) (k : unit -> M unit) :
  keeps_tables m -> (forall u, keeps_tables (k u)) -> keeps_tables (bind m k).
Proof.
  intros Hm Hk w. destruct (Hm w) as [tr1 Ht1].
  destruct (Hk tt {| w_assignments := w_assignments w; w_bookings := w_bookings w;
                     w_trace := w_trace w ++ tr1 |}) as [tr2 Ht2].
  exists (tr1 ++ tr2)%list. unfold bind. rewrite Ht1. simpl.
  rewrite Ht2. simpl. rewrite app_assoc. reflexivity.
Qed.

Create HintDb keeps.
#[local] Hint Resolve keeps_tables_ret keeps_tables_emit : keeps.

Ltac keeps_solve :=
  repeat first [ apply keeps_tables_bind; [| intros []]
               | progress case_match
               | solve [eauto with keeps] ].

Lemma acceptSideEffects_keeps (E : SideEffectOutcomes) (aid : nat) (a : WorkerAssignment) :
  keeps_tables (acceptSideEffects E aid a).
Proof. unfold acceptSideEffects. keeps_solve. Qed.

Lemma rejectSideEffects_keeps (aid : nat) (a : WorkerAssignment) :
  keeps_tables (rejectSideEffects aid a).
Proof. unfold rejectSideEffects. keeps_solve. Qed.

Lemma startSideEffects_keeps (E : SideEffectOutcomes) (aid wid : nat) (a : WorkerAssignment) :
  keeps_tables (startSideEffects E aid wid a).
Proof. unfold startSideEffects. keeps_solve. Qed.

(** The tail of CompleteAssignment only appends to the trace, and calls
    the worker-statistics increment with the booking's earnings whenever
    the worker record is found. *)
Lemma completeSideEffects_spec (E : SideEffectOutcomes) (aid wid : nat)
    (a : WorkerAssignment) (b : Booking) (m p : list string) (w : World) :
  exists tr,
    completeSideEffects E aid wid a b m p w =
      (Ok tt, {| w_assignments := w_assignments w; w_bookings := w_bookings w;
                 w_trace := w_trace w ++ tr |}) /\
    (forall worker, se_WorkerByUserID E (wa_WorkerID a) = Some worker ->
       EvIncrementCompletedJob (worker_ID worker) (completion_earnings b) ∈ tr).
Proof.
  unfold completeSideEffects, bind, emit, ret.
  destruct (se_WorkerByUserID E (wa_WorkerID a)) as [wk|] eqn:Hwk;
    destruct (se_IncrementOk E), (se_ChatCloseOk E), m, p,
      (se_LocationTrackingService E), (se_TrackingStopOk E);
    cbn; rewrite <- ?app_assoc; cbn;
    (eexists; split; [reflexivity|]);
    intros worker Hw; simplify_eq;
    apply elem_of_cons; right; apply elem_of_cons; left; reflexivity.
Qed.

(** Replace one side-effect tail by its [keeps_tables] equation. *)
Ltac tail_step :=
  let use K w :=
    let tr := fresh "tr" in let Ht := fresh "Htail" in
    destruct (K w) as [tr Ht]; rewrite Ht in *; clear Ht in
  let use_spec S :=
    let tr := fresh "tr" in let Ht := fresh "Htail" in let Hin := fresh "Hincr" in
    destruct S as [tr [Ht Hin]]; rewrite Ht in *; clear Ht in
  match goal with
  | |- context [acceptSideEffects ?E ?x ?a ?w] => use (acceptSideEffects_keeps E x a) w
  | _ : context [acceptSideEffects ?E ?x ?a ?w] |- _ => use (acceptSideEffects_keeps E x a) w
  | |- context [rejectSideEffects ?x ?a ?w] => use (rejectSideEffects_keeps x a) w
  | _ : context [rejectSideEffects ?x ?a ?w] |- _ => use (rejectSideEffects_keeps x a) w
  | |- context [startSideEffects ?E ?x ?y ?a ?w] => use (startSideEffects_keeps E x y a) w
  | _ : context [startSideEffects ?E ?x ?y ?a ?w] |- _ => use (startSideEffects_keeps E x y a) w
  | |- context [completeSideEffects ?E ?x ?y ?a ?b ?m ?p ?w] =>
      use_spec (completeSideEffects_spec E x y a b m p w)
  | _ : context [completeSideEffects ?E ?x ?y ?a ?b ?m ?p ?w] |- _ =>
      use_spec (completeSideEffects_spec E x y a b m p w)
  end.

Ltac run_unfold :=
  unfold run_op, AcceptAssignment, RejectAssignment, StartAssignment,
    CompleteAssignment, GetWorkerAssignment, checkOwner, checkStatus, check,
    getAssignment, updateAssignment, getBooking, updateBooking, log_fail,
    bind, ret, fail, emit in *.

Ltac run_split := repeat (first [tail_step | case_match; simplify_eq/=]).

(** Turn the boolean guards that passed into equations. *)
Ltac guards :=
  repeat match goal with
  | H : Nat.eqb _ _ = true |- _ => apply Nat.eqb_eq in H
  | H : AssignmentStatus_eqb _ _ = true |- _ => apply AssignmentStatus_eqb_true in H
  end.

(* ------------------------------------------------------------------ *)
(** ** Lifecycle theorems *)

(** C2: for an assignment owned by the caller, an operation whose required
    status (§4.1) differs from the assignment's status fails with the
    operation's "cannot be ... in current status" error and leaves the
    world (both tables) unchanged; a successful operation started from the
    required status, moved the assignment to the table's next status and
    wrote the loaded booking with the table's booking status. *)
Theorem transitions_follow_table (R : RepoOutcomes) (E : SideEffectOutcomes)
    (now : Time) (aid wid : nat) (op : Operation) (w : World) (a : WorkerAssignment)
    (Ha : w_assignments w !! aid = Some a) (Hw : wa_WorkerID a = wid) :
  (wa_Status a <> op_pre op ->
     run_op R E now aid wid op w = (Fail (op_state_error op), w)) /\
  (forall a' w', run_op R E now aid wid op w = (Ok a', w') ->
     wa_Status a = op_pre op /\ wa_Status a' = op_post op /\
     w_assignments w' = <[gm_ID (wa_Model a') := a']> (w_assignments w) /\
     exists b b', w_bookings w !! wa_BookingID a = Some b /\
       booking_Status b' = op_booking_post op /\
       w_bookings w' = <[gm_ID (booking_Model b) := b']> (w_bookings w)).
Proof.
  subst wid. split.
  - intros Hst. destruct op; run_unfold; rewrite Ha; rewrite Nat.eqb_refl;
      destruct (wa_Status a); cbn in Hst |- *; congruence.
  - intros a' w' Hrun. destruct op; run_unfold; rewrite Ha, Nat.eqb_refl in Hrun;
      destruct (wa_Status a) eqn:Hs; cbn in Hrun; try discriminate; run_split.
    all: split; [reflexivity|]; split; [reflexivity|]; split; [reflexivity|].
    all: eexists _, _; split; [eassumption|]; split; [|reflexivity]; reflexivity.
Qed.

Lemma transitions_follow_table_witness :
  run_op repo_ok effects_ok 100 1 7 (OpStart "")
    (sample_world (sample_assignment AssignmentStatusAssigned None None None None) ∅)
  = (Fail "assignment cannot be started in current status",
     sample_world (sample_assignment AssignmentStatusAssigned None None None None) ∅).
Proof.
  apply (proj1 (transitions_follow_table repo_ok effects_ok 100 1 7 (OpStart "")
           (sample_world (sample_assignment AssignmentStatusAssigned None None None None) ∅)
           (sample_assignment AssignmentStatusAssigned None None None None)
           eq_refl eq_refl)).
  discriminate.
Defined.

(** C3: when the caller does not own the assignment (or it does not
    exist), every mutating operation and GetWorkerAssignment fail without
    touching the world, whatever the assignment's status, and the error is
    "unauthorized access to assignment" if the assignment exists and
    "assignment not found" otherwise: nothing else about it is revealed. *)
Theorem ownership_checked_first (R : RepoOutcomes) (E : SideEffectOutcomes)
    (now : Time) (aid wid : nat) (op : Operation) (w : World)
    (Hnot : forall a, w_assignments w !! aid = Some a -> wa_WorkerID a <> wid) :
  let err := match w_assignments w !! aid with
             | Some _ => msg_unauthorized
             | None => msg_not_found
             end in
  run_op R E now aid wid op w = (Fail err, w) /\
  GetWorkerAssignment aid wid w = (Fail err, w).
Proof.
  cbn zeta. destruct (w_assignments w !! aid) as [a|] eqn:Ha.
  - pose proof (Hnot a eq_refl) as Hne. apply Nat.eqb_neq in Hne.
    split; [destruct op|]; run_unfold; rewrite Ha, Hne; reflexivity.
  - split; [destruct op|]; run_unfold; rewrite Ha; reflexivity.
Qed.

Lemma ownership_checked_first_witness :
  run_op repo_ok effects_ok 100 1 8 (OpComplete "" [] [])
    (sample_world (sample_assignment AssignmentStatusInProgress
                     (Some 10%Z) None (Some 20%Z) None) ∅)
  = (Fail msg_unauthorized,
     sample_world (sample_assignment AssignmentStatusInProgress
                     (Some 10%Z) None (Some 20%Z) None) ∅).
Proof.
  apply (proj1 (ownership_checked_first repo_ok effects_ok 100 1 8 (OpComplete "" [] [])
    (sample_world (sample_assignment AssignmentStatusInProgress
                     (Some 10%Z) None (Some 20%Z) None) ∅)
    (fun a Ha => ltac:(vm_compute in Ha; injection Ha as <-; discriminate)))).
Defined.

(** C1 (as the code does it): the Assignment is written before the
    Booking, without a transaction.  When an operation fails, the bookings
    table is unchanged.  If the failure is not the booking read/write (not
    found, unauthorized, wrong status, failed assignment write), the
    assignments table is unchanged too.  If it is the booking read/write
    ("failed to update booking status"), the caller's assignment was found
    in the status the operation requires, and the assignment moved to the
    table's next status stays written under its key. *)
Theorem failure_keeps_booking_assignment_may_persist (R : RepoOutcomes)
    (E : SideEffectOutcomes) (now : Time) (aid wid : nat) (op : Operation)
    (w w' : World) (msg : string)
    (Hrun : run_op R E now aid wid op w = (Fail msg, w')) :
  w_bookings w' = w_bookings w /\
  (msg <> msg_booking_update -> w_assignments w' = w_assignments w) /\
  (msg = msg_booking_update ->
   exists a a', w_assignments w !! aid = Some a /\ wa_WorkerID a = wid /\
     wa_Status a = op_pre op /\ wa_Status a' = op_post op /\
     gm_ID (wa_Model a') = gm_ID (wa_Model a) /\
     w_assignments w' = <[gm_ID (wa_Model a') := a']> (w_assignments w)).
Proof.
  destruct op; run_unfold; run_split; guards.
  all: split; [reflexivity|].
  all: first [ split; [intros _; reflexivity
                      | intros Hm; exfalso; vm_compute in Hm; discriminate Hm]
             | split; [intros Hm; exfalso; apply Hm; reflexivity | intros _];
               match goal with
               | |- context [ <[_ := ?v]> (w_assignments _) = _ ] => exists a, v
               end;
               split; [reflexivity|]; split; [eassumption|];
               split; [eassumption|]; split; [reflexivity|];
               split; reflexivity ].
Qed.

Lemma failure_keeps_booking_assignment_may_persist_witness :
  exists a a', w_assignments world_missing_booking !! 1%nat = Some a /\ wa_WorkerID a = 7 /\
    wa_Status a = op_pre (OpAccept "") /\ wa_Status a' = op_post (OpAccept "") /\
    gm_ID (wa_Model a') = gm_ID (wa_Model a) /\
    w_assignments (snd (run_op repo_ok effects_ok 100 1 7 (OpAccept "") world_missing_booking))
      = <[gm_ID (wa_Model a') := a']> (w_assignments world_missing_booking).
Proof.
  apply (proj2 (proj2 (failure_keeps_booking_assignment_may_persist repo_ok effects_ok 100 1 7
    (OpAccept "") world_missing_booking
    (snd (run_op repo_ok effects_ok 100 1 7 (OpAccept "") world_missing_booking))
    msg_booking_update ltac:(vm_compute; reflexivity)))).
  reflexivity.
Defined.

(** C1 counterexample: Accept on an owned, assigned assignment whose
    booking cannot be loaded returns "failed to update booking status",
    yet the assignment is left written as accepted. *)
Lemma accept_error_leaves_assignment_accepted :
  let res := run_op repo_ok effects_ok 100 1 7 (OpAccept "") world_missing_booking in
  fst res = Fail msg_booking_update /\
  option_map wa_Status (w_assignments (snd res) !! 1%nat) = Some AssignmentStatusAccepted.
Proof. vm_compute. split; reflexivity. Qed.

(** C4: on a successful Complete, when the worker record of the caller is
    found, the worker-statistics increment is called with the booking's
    quote amount if present, else its service's price if present, else 0. *)
Theorem complete_increments_earnings (R : RepoOutcomes) (E : SideEffectOutcomes)
    (now : Time) (aid wid : nat) (notes : string) (mats photos : list string)
    (w w' : World) (a' : WorkerAssignment) (worker : Worker)
    (Hrun : CompleteAssignment R E now aid wid notes mats photos w = (Ok a', w'))
    (Hworker : se_WorkerByUserID E wid = Some worker) :
  exists b, w_bookings w !! wa_BookingID a' = Some b /\
    EvIncrementCompletedJob (worker_ID worker)
      (match booking_QuoteAmount b, service_Price (booking_Service b) with
       | Some q, _ => q
       | None, Some p => p
       | None, None => 0%Q
       end) ∈ w_trace w'.
Proof.
  run_unfold; run_split; guards; subst.
  all: eexists; split; [eassumption|].
  all: apply elem_of_app; right; exact (Hincr worker Hworker).
Qed.

Lemma complete_increments_earnings_witness :
  exists b, w_bookings (world_in_progress (Some 0%Z) (Some (120#1)) (Some (80#1))) !! 10%nat = Some b /\
    EvIncrementCompletedJob 70
      (match booking_QuoteAmount b, service_Price (booking_Service b) with
       | Some q, _ => q
       | None, Some p => p
       | None, None => 0%Q
       end)
    ∈ w_trace (snd (CompleteAssignment repo_ok effects_ok 100 1 7 "" [] []
                      (world_in_progress (Some 0%Z) (Some (120#1)) (Some (80#1))))).
Proof.
  apply (complete_increments_earnings repo_ok effects_ok 100 1 7 "" [] []
    (world_in_progress (Some 0%Z) (Some (120#1)) (Some (80#1)))
    (snd (CompleteAssignment repo_ok effects_ok 100 1 7 "" [] []
            (world_in_progress (Some 0%Z) (Some (120#1)) (Some (80#1)))))
    (wa_complete (sample_assignment AssignmentStatusInProgress (Some 0%Z) None
                    (Some 0%Z) None) 100)
    {| worker_ID := 70; worker_UserID := 7 |}
    ltac:(vm_compute; reflexivity) eq_refl).
Defined.

(** The three earnings cases of §8, on the booking Complete reads. *)
Example earnings_quote :
  completion_earnings (sample_booking None (Some (120#1)) (Some (80#1))) = (120#1)%Q.
Proof. reflexivity. Qed.

Example earnings_service_price :
  completion_earnings (sample_booking None None (Some (80#1))) = (80#1)%Q.
Proof. reflexivity. Qed.

Example earnings_none :
  completion_earnings (sample_booking None None None) = 0%Q.
Proof. reflexivity. Qed.

(** The float64 computation of a duration in minutes is never positive
    when the start time is after the end time. *)
Lemma round_aux_negative (mx ex : Z) (lx : SpecFloat.location) :
  not_positive (SpecFloat.binary_round_aux f64_prec f64_emax true mx ex lx).
Proof.
  unfold SpecFloat.binary_round_aux.
  destruct (SpecFloat.shr_fexp _ _ mx ex lx) as [mrs' e'].
  destruct (SpecFloat.shr_fexp _ _ _ e' _) as [mrs'' e''].
  destruct (SpecFloat.shr_m mrs''); cbn; trivial.
  destruct (Z.leb e'' _); cbn; trivial.
Qed.

Lemma round_negative (m : positive) (e : Z) :
  not_positive (SpecFloat.binary_round f64_prec f64_emax true m e).
Proof.
  unfold SpecFloat.binary_round.
  destruct (SpecFloat.shl_align _ _ _) as [mz ez]. apply round_aux_negative.
Qed.

Lemma float64_of_nonpos (m e : Z) :
  (m <= 0)%Z -> not_positive (SpecFloat.binary_normalize f64_prec f64_emax m e false).
Proof.
  intros Hm. destruct m as [|p|p]; [exact I|lia|apply round_negative].
Qed.

Lemma f64_div_nonpos (x : float64) (my : positive) (ey : Z) :
  not_positive x -> not_positive (f64_div x (SpecFloat.S754_finite false my ey)).
Proof.
  intros Hx. destruct x as [s|s| |[|] mx ex]; cbn in *; trivial; [|contradiction].
  destruct (SpecFloat.SFdiv_core_binary _ _ _ _ _ _) as [[mz ez] lz].
  apply round_aux_negative.
Qed.

Lemma f64_add_nonpos (x y : float64) :
  not_positive x -> not_positive y -> not_positive (f64_add x y).
Proof.
  intros Hx Hy.
  destruct x as [[|]|[|]| |[|] mx ex]; destruct y as [[|]|[|]| |[|] my ey];
    cbn in *; trivial; try contradiction.
  apply round_negative.
Qed.

Lemma int_of_float64_nonpos (f : float64) :
  not_positive f -> (int_of_float64 f <= 0)%Z.
Proof.
  intros Hf. unfold int_of_float64, int64_min.
  destruct f as [s|s| |[|] m e]; cbn in Hf; try contradiction; try lia.
  assert (0 <= (if Z.leb 0 e then Z.shiftl (Zpos m) e else Z.shiftr (Zpos m) (- e)))%Z.
  { destruct (Z.leb 0 e) eqn:He.
    - apply Z.shiftl_nonneg; lia.
    - apply Z.shiftr_nonneg; lia. }
  destruct (andb _ _); lia.
Qed.

Lemma float64_60e9_positive :
  exists m e, float64_of_int 60000000000 = SpecFloat.S754_finite false m e.
Proof. eexists _, _. vm_compute. reflexivity. Qed.

Lemma duration_minutes_nonpos (now start : Z) :
  (now < start)%Z -> (duration_minutes now start <= 0)%Z.
Proof.
  intros Hlt. unfold duration_minutes.
  assert (Hd : (time_Sub now start < 0)%Z).
  { unfold time_Sub. cbv zeta.
    destruct (Z.ltb_spec int64_max (now - start)).
    - exfalso. unfold int64_max in *. lia.
    - destruct (Z.ltb_spec (now - start) int64_min); [|lia].
      unfold int64_min. lia. }
  apply int_of_float64_nonpos. unfold Duration_Minutes.
  apply f64_add_nonpos.
  - apply float64_of_nonpos.
    generalize dependent (time_Sub now start). intros d Hd.
    replace d with (- (- d))%Z by lia.
    rewrite Z.quot_opp_l by (unfold Minute; lia).
    pose proof (Z.quot_pos (- d) Minute ltac:(lia) ltac:(unfold Minute; lia)). lia.
  - destruct float64_60e9_positive as (m & e & ->). apply f64_div_nonpos.
    apply float64_of_nonpos. apply Z.rem_nonpos; unfold Minute; lia.
Qed.

(** 10:00 to 10:47, in nanoseconds. *)
Example duration_47 : duration_minutes 38820000000000 36000000000000 = 47%Z.
Proof. vm_compute. reflexivity. Qed.




(** C7: once an operation has succeeded, the outcome of its side effects
    (chat room, location tracking, worker statistics) does not matter: under
    any other side-effect outcomes it returns the same assignment with no
    error and leaves the same assignments and bookings tables. *)
Theorem side_effect_failures_not_surfaced (R : RepoOutcomes)
    (E1 E2 : SideEffectOutcomes) (now : Time) (aid wid : nat) (op : Operation)
    (w w1 : World) (a' : WorkerAssignment)
    (Hrun : run_op R E1 now aid wid op w = (Ok a', w1)) :
  exists w2, run_op R E2 now aid wid op w = (Ok a', w2) /\
    w_assignments w2 = w_assignments w1 /\ w_bookings w2 = w_bookings w1.
Proof.
  destruct op; run_unfold; run_split;
    eexists; (split; [reflexivity|]); split; reflexivity.
Qed.

Lemma side_effect_failures_not_surfaced_witness :
  exists w2, run_op repo_ok effects_failing 100 1 7 (OpComplete "" [] [])
                (world_in_progress (Some 0%Z) None None)
             = (Ok (wa_complete (sample_assignment AssignmentStatusInProgress (Some 0%Z) None
                                  (Some 0%Z) None) 100), w2) /\
    w_assignments w2 = w_assignments (snd (run_op repo_ok effects_ok 100 1 7 (OpComplete "" [] [])
                                           (world_in_progress (Some 0%Z) None None))) /\
    w_bookings w2 = w_bookings (snd (run_op repo_ok effects_ok 100 1 7 (OpComplete "" [] [])
                                      (world_in_progress (Some 0%Z) None None))).
Proof.
  apply (side_effect_failures_not_surfaced repo_ok effects_ok effects_failing 100 1 7
    (OpComplete "" [] []) (world_in_progress (Some 0%Z) None None)
    (snd (run_op repo_ok effects_ok 100 1 7 (OpComplete "" [] [])
            (world_in_progress (Some 0%Z) None None)))
    (wa_complete (sample_assignment AssignmentStatusInProgress (Some 0%Z) None
                    (Some 0%Z) None) 100)
    ltac:(vm_compute; reflexivity)).
Defined.

(** C6: the privacy projection (a total Rocq function) gives the same
    worker-facing response for two loaded assignments that differ only in
    the booking owner's phone, whatever that phone is; and the user's
    Subscription and NotificationSettings are replaced by nil. *)
Theorem projection_ignores_owner_phone (a : WorkerAssignment) (phone : string) :
  convertToPrivacyProtectedResponse (with_owner_phone a phone) =
  convertToPrivacyProtectedResponse a /\
  ur_Subscription (br_User (ar_Booking (convertToPrivacyProtectedResponse a))) = None /\
  ur_NotificationSettings (br_User (ar_Booking (convertToPrivacyProtectedResponse a))) = None.
Proof. split; [|split]; reflexivity. Qed.

(** C10: GetWorkerAssignment returns the loaded assignment itself, with the
    booking owner's phone and all nested relations, while
    GetWorkerAssignments maps the privacy projection over every assignment
    the repository returns. *)
Theorem get_unprojected_list_projected (aid wid : nat) (w : World) (a : WorkerAssignment)
    (repo : nat -> WorkerAssignmentFilters -> Outcome (list WorkerAssignment * Pagination))
    (filters : WorkerAssignmentFilters) (assignments : list WorkerAssignment)
    (pagination : Pagination)
    (Ha : w_assignments w !! aid = Some a) (Hw : wa_WorkerID a = wid)
    (Hrepo : repo wid filters = Ok (assignments, pagination)) :
  GetWorkerAssignment aid wid w = (Ok a, w) /\
  GetWorkerAssignments repo wid filters =
    Ok (map convertToPrivacyProtectedResponse assignments, pagination).
Proof.
  subst wid. split.
  - run_unfold. rewrite Ha, Nat.eqb_refl. reflexivity.
  - unfold GetWorkerAssignments. rewrite Hrepo. destruct pagination. reflexivity.
Qed.

Lemma get_unprojected_list_projected_witness :
  GetWorkerAssignment 1 7
    (sample_world (sample_assignment AssignmentStatusAssigned None None None None) ∅)
  = (Ok (sample_assignment AssignmentStatusAssigned None None None None),
     sample_world (sample_assignment AssignmentStatusAssigned None None None None) ∅) /\
  GetWorkerAssignments
    (fun _ _ => Ok ([sample_assignment AssignmentStatusAssigned None None None None],
                    sample_pagination)) 7 sample_filters
  = Ok (map convertToPrivacyProtectedResponse
          [sample_assignment AssignmentStatusAssigned None None None None],
        sample_pagination).
Proof.
  apply (get_unprojected_list_projected 1 7
    (sample_world (sample_assignment AssignmentStatusAssigned None None None None) ∅)
    (sample_assignment AssignmentStatusAssigned None None None None)
    (fun _ _ => Ok ([sample_assignment AssignmentStatusAssigned None None None None],
                    sample_pagination))
    sample_filters [sample_assignment AssignmentStatusAssigned None None None None]
    sample_pagination eq_refl eq_refl eq_refl).
Defined.

(* ------------------------------------------------------------------ *)
(** ** Timestamp invariants *)

Lemma consistent_ts_invariant (a : WorkerAssignment) :
  status_consistent a = true -> ts_invariant a = true.
Proof.
  unfold status_consistent, ts_invariant.
  destruct (wa_Status a), (is_set (wa_AcceptedAt a)), (is_set (wa_RejectedAt a)),
    (is_set (wa_StartedAt a)), (is_set (wa_CompletedAt a)); cbn; congruence.
Qed.

Ltac transition_consistent :=
  intros H Hs; unfold status_consistent in *; cbn; rewrite Hs in H;
  destruct (is_set (wa_AcceptedAt _)), (is_set (wa_RejectedAt _)),
    (is_set (wa_StartedAt _)), (is_set (wa_CompletedAt _)); cbn in *; congruence.

Lemma accept_consistent (a : WorkerAssignment) (now : Time) (notes : string) :
  status_consistent a = true -> wa_Status a = AssignmentStatusAssigned ->
  status_consistent (wa_accept a now notes) = true.
Proof. transition_consistent. Qed.

Lemma reject_consistent (a : WorkerAssignment) (now : Time) (reason notes : string) :
  status_consistent a = true -> wa_Status a = AssignmentStatusAssigned ->
  status_consistent (wa_reject a now reason notes) = true.
Proof. transition_consistent. Qed.

Lemma start_consistent (a : WorkerAssignment) (now : Time) :
  status_consistent a = true -> wa_Status a = AssignmentStatusAccepted ->
  status_consistent (wa_start a now) = true.
Proof. transition_consistent. Qed.

Lemma complete_consistent (a : WorkerAssignment) (now : Time) :
  status_consistent a = true -> wa_Status a = AssignmentStatusInProgress ->
  status_consistent (wa_complete a now) = true.
Proof. transition_consistent. Qed.

Create HintDb consistent.
#[local] Hint Resolve accept_consistent reject_consistent start_consistent
  complete_consistent : consistent.

(** C8 counterexample: an assigned assignment carrying a rejectedAt
    satisfies the timestamp invariant (only one of acceptedAt/rejectedAt is
    set); Accept checks the status only, succeeds, and sets acceptedAt
    beside rejectedAt, in the returned and in the stored assignment. *)
Lemma accept_sets_accepted_beside_rejected :
  let a0 := sample_assignment AssignmentStatusAssigned None (Some 5%Z) None None in
  let res := run_op repo_ok effects_ok 100 1 7 (OpAccept "")
               (sample_world a0 {[10%nat := sample_booking None None None]}) in
  ts_invariant a0 = true /\
  match fst res with Ok a' => ts_invariant a' = false | Fail _ => False end /\
  option_map ts_invariant (w_assignments (snd res) !! 1%nat) = Some false.
Proof. vm_compute. split; [reflexivity | split; reflexivity]. Qed.

(** C8 (as the code does it): the operations check the status, not the
    timestamps.  The invariant is preserved for assignments whose
    timestamps match their status (assigned: none; accepted: acceptedAt;
    rejected: rejectedAt; in_progress: acceptedAt and startedAt; completed:
    all three but rejectedAt), which the §3 invariant implies for every
    stored and returned assignment: if all stored assignments are
    consistent before any operation, whatever its outcome, they all are
    after it, they all satisfy the invariant, and so does a returned one. *)
Theorem status_consistency_preserved (R : RepoOutcomes) (E : SideEffectOutcomes)
    (now : Time) (aid wid : nat) (op : Operation) (w w' : World)
    (r : Outcome WorkerAssignment)
    (Hinv : map_Forall (fun _ a => status_consistent a = true) (w_assignments w))
    (Hrun : run_op R E now aid wid op w = (r, w')) :
  map_Forall (fun _ a => status_consistent a = true) (w_assignments w') /\
  map_Forall (fun _ a => ts_invariant a = true) (w_assignments w') /\
  (forall a', r = Ok a' -> status_consistent a' = true /\ ts_invariant a' = true).
Proof.
  assert (Hpres : map_Forall (fun _ a => status_consistent a = true) (w_assignments w') /\
                  (forall a', r = Ok a' -> status_consistent a' = true)).
  { destruct op; run_unfold; run_split; guards.
    all: cbn; split; [first [assumption | apply map_Forall_insert_2; [|assumption]]
                     | intros ? ?; simplify_eq].
    all: match goal with
         | Hl : _ !! _ = Some ?a |- _ =>
             pose proof (map_Forall_lookup_1 _ _ _ _ Hinv Hl) as Hc; cbn in Hc
         end; eauto with consistent. }
  destruct Hpres as [H1 H2]. split; [exact H1 | split].
  - eapply map_Forall_impl; [exact H1|]. intros ? ? ?. apply consistent_ts_invariant. assumption.
  - intros a' ->. pose proof (H2 a' eq_refl). split; [assumption|].
    apply consistent_ts_invariant. assumption.
Qed.

Lemma status_consistency_preserved_witness :
  map_Forall (fun _ a => ts_invariant a = true)
    (w_assignments (snd (run_op repo_ok effects_ok 100 1 7 (OpAccept "")
       (sample_world (sample_assignment AssignmentStatusAssigned None None None None)
          {[10%nat := sample_booking None None None]})))).
Proof.
  apply (proj1 (proj2 (status_consistency_preserved repo_ok effects_ok 100 1 7 (OpAccept "")
    (sample_world (sample_assignment AssignmentStatusAssigned None None None None)
       {[10%nat := sample_booking None None None]})
    (snd (run_op repo_ok effects_ok 100 1 7 (OpAccept "")
       (sample_world (sample_assignment AssignmentStatusAssigned None None None None)
          {[10%nat := sample_booking None None None]})))
    (fst (run_op repo_ok effects_ok 100 1 7 (OpAccept "")
       (sample_world (sample_assignment AssignmentStatusAssigned None None None None)
          {[10%nat := sample_booking None None None]})))
    ltac:(apply map_Forall_singleton; reflexivity)
    ltac:(vm_compute; reflexivity)))).
Defined.

(* ------------------------------------------------------------------ *)
(** ** Concurrent Accept requests *)

(** The step model is AcceptAssignment: run alone for five steps, a thread
    ends with AcceptAssignment's result and world. *)
Lemma accept_phases_refine (R : RepoOutcomes) (E : SideEffectOutcomes) (now : Time)
    (aid wid : nat) (notes : string) (w : World) :
  run_phases (accept_step R E now aid wid notes) 5 AcceptLoad w =
  (AcceptDone (fst (AcceptAssignment R E now aid wid notes w)),
   snd (AcceptAssignment R E now aid wid notes w)).
Proof.
  cbn [run_phases]. unfold accept_step, continue_with. run_unfold.
  repeat (case_match; simplify_eq/=); reflexivity.
Qed.

(** C9 counterexample: two Accept requests for the same assigned
    assignment, each loading it before the other writes it, both succeed,
    and the accept fan-out (call masking, notifications) runs twice. *)
Lemma concurrent_accepts_both_succeed :
  let res := interleave (accept_step repo_ok effects_ok 100 1 7 "first")
               (accept_step repo_ok effects_ok 101 1 7 "second") lockstep_schedule
               AcceptLoad AcceptLoad
               (sample_world (sample_assignment AssignmentStatusAssigned None None None None)
                  {[10%nat := sample_booking None None None]}) in
  match res with
  | (AcceptDone (Ok a1), AcceptDone (Ok a2), w') =>
      wa_Status a1 = AssignmentStatusAccepted /\ wa_Status a2 = AssignmentStatusAccepted /\
      accepted_fan_outs 10 (w_trace w') = 2
  | _ => False
  end.
Proof. vm_compute. split; [reflexivity | split; reflexivity]. Qed.

(** C9 (as the code does it): the read-check-write of Accept is not
    serialized.  With the assignments stored under their IDs, an Accept
    that runs after another Accept of the same assignment succeeded fails
    with "assignment cannot be accepted in current status" and changes
    nothing; but when both requests load the assigned assignment before
    either writes it (with the repository calls succeeding and the booking
    present), both return an accepted assignment, each runs the accept
    fan-out, and the later write wins. *)
Theorem accept_not_serialized (R : RepoOutcomes) (E : SideEffectOutcomes)
    (now1 now2 : Time) (aid wid : nat) (notes1 notes2 : string) (w : World)
    (Hkey : forall a, w_assignments w !! aid = Some a -> gm_ID (wa_Model a) = aid) :
  (forall a1 w1, AcceptAssignment R E now1 aid wid notes1 w = (Ok a1, w1) ->
     AcceptAssignment R E now2 aid wid notes2 w1 =
       (Fail "assignment cannot be accepted in current status", w1)) /\
  (forall a, w_assignments w !! aid = Some a -> wa_WorkerID a = wid ->
     wa_Status a = AssignmentStatusAssigned ->
     ro_AssignmentUpdateOk R = true -> ro_BookingGetOk R = true ->
     ro_BookingUpdateOk R = true -> is_Some (w_bookings w !! wa_BookingID a) ->
     exists w', interleave (accept_step R E now1 aid wid notes1)
                  (accept_step R E now2 aid wid notes2) lockstep_schedule
                  AcceptLoad AcceptLoad w =
       (AcceptDone (Ok (wa_accept a now1 notes1)),
        AcceptDone (Ok (wa_accept a now2 notes2)), w') /\
       w_assignments w' !! aid = Some (wa_accept a now2 notes2)).
Proof.
  split.
  - intros a1 w1 Hrun.
    assert (Hw1 : w_assignments w1 !! aid = Some a1 /\ wa_WorkerID a1 = wid /\
                  wa_Status a1 = AssignmentStatusAccepted).
    { run_unfold. run_split. guards.
      match goal with
      | |- context [<[gm_ID (wa_Model ?x) := _]> _] =>
          rewrite (Hkey x ltac:(first [reflexivity | assumption]))
      end.
      rewrite lookup_insert_eq. split; [reflexivity | split; [assumption | reflexivity]]. }
    destruct Hw1 as (Hl & <- & Hs). run_unfold.
    rewrite Hl, Nat.eqb_refl, Hs. reflexivity.
  - intros a Ha Hw Hs HU HG HB [b Hb]. subst wid.
    unfold lockstep_schedule. cbn [interleave]. unfold accept_step, continue_with. run_unfold.
    repeat (first [tail_step | progress rewrite ?Ha, ?Hb, ?Nat.eqb_refl, ?Hs, ?HU, ?HG, ?HB
                   | progress cbn -[lookup insert]]).
    eexists; split; [reflexivity|]. cbn.
    rewrite (Hkey _ Ha), lookup_insert_eq. reflexivity.
Qed.

Lemma accept_not_serialized_witness :
  exists w', interleave (accept_step repo_ok effects_ok 100 1 7 "first")
               (accept_step repo_ok effects_ok 101 1 7 "second") lockstep_schedule
               AcceptLoad AcceptLoad
               (sample_world (sample_assignment AssignmentStatusAssigned None None None None)
                  {[10%nat := sample_booking None None None]}) =
    (AcceptDone (Ok (wa_accept (sample_assignment AssignmentStatusAssigned None None None None)
                       100 "first")),
     AcceptDone (Ok (wa_accept (sample_assignment AssignmentStatusAssigned None None None None)
                       101 "second")), w') /\
    w_assignments w' !! 1%nat =
      Some (wa_accept (sample_assignment AssignmentStatusAssigned None None None None)
              101 "second").
Proof.
  apply (proj2 (accept_not_serialized repo_ok effects_ok 100 101 1 7 "first" "second"
    (sample_world (sample_assignment AssignmentStatusAssigned None None None None)
       {[10%nat := sample_booking None None None]})
    (fun a Ha => ltac:(vm_compute in Ha; injection Ha as <-; reflexivity)))
    (sample_assignment AssignmentStatusAssigned None None None None)
    eq_refl eq_refl eq_refl eq_refl eq_refl eq_refl).
  vm_compute. eexists; reflexivity.
Defined.

(* ------------------------------------------------------------------ *)
(** ** Further properties of the service *)

Ltac in_solve := apply list_elem_of_In; repeat (first [left; reflexivity | right]).

Lemma acceptSideEffects_trace (E : SideEffectOutcomes) (aid : nat) (a : WorkerAssignment)
    (w : World) :
  exists tr,
    acceptSideEffects E aid a w =
      (Ok tt, {| w_assignments := w_assignments w; w_bookings := w_bookings w;
                 w_trace := w_trace w ++ tr |}) /\
    EvCallMaskingEnable (wa_BookingID a) ∈ tr /\
    EvNotification "assignment_accepted" aid (wa_BookingID a) ∈ tr /\
    Forall (fun e => is_tracking e = false /\ is_increment e = false) tr.
Proof.
  unfold acceptSideEffects, bind, emit, ret.
  destruct (se_ChatCreateOk E); cbn; rewrite <- ?app_assoc; cbn; 
    (eexists; split; [reflexivity|]).
  all: split; [in_solve|]. all: split; [in_solve|]. all: repeat constructor.
Qed.

Lemma rejectSideEffects_trace (aid : nat) (a : WorkerAssignment) (w : World) :
  exists tr,
    rejectSideEffects aid a w =
      (Ok tt, {| w_assignments := w_assignments w; w_bookings := w_bookings w;
                 w_trace := w_trace w ++ tr |}) /\
    EvCallMaskingDisable (wa_BookingID a) ∈ tr /\
    EvNotification "assignment_rejected" aid (wa_BookingID a) ∈ tr /\
    Forall (fun e => is_tracking e = false /\ is_increment e = false) tr.
Proof.
  unfold rejectSideEffects, bind, emit, ret. cbn; rewrite <- ?app_assoc; cbn.
  eexists; split; [reflexivity|].
  split; [in_solve | split; [in_solve | repeat constructor]].
Qed.

Lemma startSideEffects_trace (E : SideEffectOutcomes) (aid wid : nat) (a : WorkerAssignment)
    (w : World) :
  exists tr,
    startSideEffects E aid wid a w =
      (Ok tt, {| w_assignments := w_assignments w; w_bookings := w_bookings w;
                 w_trace := w_trace w ++ tr |}) /\
    EvNotification "worker_started" aid (wa_BookingID a) ∈ tr /\
    Forall (fun e => is_increment e = false) tr /\
    (se_LocationTrackingService E = false -> Forall (fun e => is_tracking e = false) tr) /\
    (se_LocationTrackingService E = true -> se_TrackingStartOk E = true ->
       EvTrackingStarted wid aid ∈ tr).
Proof.
  unfold startSideEffects, bind, emit, ret.
  destruct (se_LocationTrackingService E), (se_TrackingStartOk E); cbn;
    rewrite <- ?app_assoc; cbn; (eexists; split; [reflexivity|]).
  all: split; [in_solve|]. all: split; [repeat constructor|].
  all: split; intros; try discriminate.
  all: first [in_solve | repeat constructor].
Qed.

Lemma completeSideEffects_trace (E : SideEffectOutcomes) (aid wid : nat)
    (a : WorkerAssignment) (b : Booking) (m p : list string) (w : World) :
  exists tr,
    completeSideEffects E aid wid a b m p w =
      (Ok tt, {| w_assignments := w_assignments w; w_bookings := w_bookings w;
                 w_trace := w_trace w ++ tr |}) /\
    EvCallMaskingDisable (wa_BookingID a) ∈ tr /\
    EvNotification "worker_completed" aid (wa_BookingID a) ∈ tr /\
    (se_LocationTrackingService E = false -> Forall (fun e => is_tracking e = false) tr) /\
    (se_LocationTrackingService E = true -> se_TrackingStopOk E = true ->
       EvTrackingStopped wid aid ∈ tr) /\
    (se_WorkerByUserID E (wa_WorkerID a) = None -> Forall (fun e => is_increment e = false) tr).
Proof.
  unfold completeSideEffects, bind, emit, ret.
  destruct (se_WorkerByUserID E (wa_WorkerID a)) as [wk|] eqn:Hwk;
    destruct (se_IncrementOk E), (se_ChatCloseOk E), m, p,
      (se_LocationTrackingService E), (se_TrackingStopOk E);
    cbn; rewrite <- ?app_assoc; cbn;
    (eexists; split; [reflexivity|]).
  all: split; [in_solve|]. all: split; [in_solve|]. all: split; [|split].
  all: intros; try discriminate.
  all: first [in_solve | repeat constructor].
Qed.

Ltac tail_facts :=
  let go S :=
    let tr := fresh "tr" in let Ht := fresh "Htail" in let Hf := fresh "Hfacts" in
    destruct S as [tr [Ht Hf]]; rewrite Ht in *; clear Ht in
  match goal with
  | |- context [acceptSideEffects ?E ?x ?a ?w] => go (acceptSideEffects_trace E x a w)
  | _ : context [acceptSideEffects ?E ?x ?a ?w] |- _ => go (acceptSideEffects_trace E x a w)
  | |- context [rejectSideEffects ?x ?a ?w] => go (rejectSideEffects_trace x a w)
  | _ : context [rejectSideEffects ?x ?a ?w] |- _ => go (rejectSideEffects_trace x a w)
  | |- context [startSideEffects ?E ?x ?y ?a ?w] => go (startSideEffects_trace E x y a w)
  | _ : context [startSideEffects ?E ?x ?y ?a ?w] |- _ => go (startSideEffects_trace E x y a w)
  | |- context [completeSideEffects ?E ?x ?y ?a ?b ?m ?p ?w] =>
      go (completeSideEffects_trace E x y a b m p w)
  | _ : context [completeSideEffects ?E ?x ?y ?a ?b ?m ?p ?w] |- _ =>
      go (completeSideEffects_trace E x y a b m p w)
  end.

Ltac run_split_facts := repeat (first [tail_facts | case_match; simplify_eq/=]).

Ltac trace_exists :=
  first [ exists []; rewrite app_nil_r; split; [reflexivity|]
        | rewrite <- ?app_assoc; eexists; split; [reflexivity|] ].

Ltac fact_solve :=
  repeat match goal with H : _ /\ _ |- _ => destruct H end;
  first [ tauto | in_solve | solve [repeat constructor]
        | match goal with
          | H : Forall _ ?l |- Forall _ ?l =>
              eapply Forall_impl; [exact H | cbn; intros ? [? ?]; assumption]
          end ].

(** When an operation fails, it leaves behind at most one event, a log
    line: no notification, chat, call masking, tracking or earnings call is
    dispatched. *)
Theorem failure_dispatches_nothing (R : RepoOutcomes) (E : SideEffectOutcomes)
    (now : Time) (aid wid : nat) (op : Operation) (w w' : World) (msg : string)
    (Hrun : run_op R E now aid wid op w = (Fail msg, w')) :
  exists tr, w_trace w' = (w_trace w ++ tr)%list /\ length tr <= 1 /\
    Forall (fun e => is_log e = true) tr.
Proof.
  destruct op; run_unfold; run_split.
  all: trace_exists; split; [cbn; lia | repeat constructor].
Qed.

Lemma failure_dispatches_nothing_witness :
  exists tr,
    w_trace (snd (run_op repo_update_failing effects_ok 100 1 7 (OpAccept "") world_assigned)) =
      (w_trace world_assigned ++ tr)%list /\ length tr <= 1 /\
    Forall (fun e => is_log e = true) tr.
Proof.
  exact (failure_dispatches_nothing repo_update_failing effects_ok 100 1 7 (OpAccept "")
    world_assigned
    (snd (run_op repo_update_failing effects_ok 100 1 7 (OpAccept "") world_assigned))
    "failed to accept assignment" ltac:(vm_compute; reflexivity)).
Defined.

(** When an operation succeeds, its fan-out has dispatched the operation's
    notification for the assignment and, for Accept, Reject and Complete,
    the call-masking enable or disable for the booking. *)
Theorem success_dispatches_fan_out (R : RepoOutcomes) (E : SideEffectOutcomes)
    (now : Time) (aid wid : nat) (op : Operation) (w w' : World) (a' : WorkerAssignment)
    (Hrun : run_op R E now aid wid op w = (Ok a', w')) :
  exists tr, w_trace w' = (w_trace w ++ tr)%list /\
    EvNotification (op_notification op) aid (wa_BookingID a') ∈ tr /\
    (forall e, op_call_masking op (wa_BookingID a') = Some e -> e ∈ tr).
Proof.
  destruct op; run_unfold; run_split_facts.
  all: trace_exists; cbn in *.
  all: split; [fact_solve | intros e He; inversion He; subst; fact_solve].
Qed.

Lemma success_dispatches_fan_out_witness :
  exists tr,
    w_trace (snd (run_op repo_ok effects_ok 100 1 7 (OpAccept "") world_assigned)) =
      (w_trace world_assigned ++ tr)%list /\
    EvNotification (op_notification (OpAccept "")) 1
      (wa_BookingID (wa_accept (sample_assignment AssignmentStatusAssigned None None None None)
                       100 "")) ∈ tr /\
    (forall e, op_call_masking (OpAccept "")
        (wa_BookingID (wa_accept (sample_assignment AssignmentStatusAssigned None None None None)
                         100 "")) = Some e -> e ∈ tr).
Proof.
  exact (success_dispatches_fan_out repo_ok effects_ok 100 1 7 (OpAccept "") world_assigned
    (snd (run_op repo_ok effects_ok 100 1 7 (OpAccept "") world_assigned))
    (wa_accept (sample_assignment AssignmentStatusAssigned None None None None) 100 "")
    ltac:(vm_compute; reflexivity)).
Defined.

(** Location tracking is touched only when the tracking service is
    available: without it no tracking event is emitted. With it, a
    successful Start (whose start call succeeds) starts tracking, a
    successful Complete (whose stop call succeeds) stops it, and Accept and
    Reject never touch tracking. *)
Theorem tracking_only_with_service (R : RepoOutcomes) (E : SideEffectOutcomes)
    (now : Time) (aid wid : nat) (op : Operation) (w w' : World)
    (r : Outcome WorkerAssignment)
    (Hrun : run_op R E now aid wid op w = (r, w')) :
  exists tr, w_trace w' = (w_trace w ++ tr)%list /\
    (se_LocationTrackingService E = false -> Forall (fun e => is_tracking e = false) tr) /\
    (forall a', r = Ok a' -> se_LocationTrackingService E = true ->
       match op with
       | OpStart _ => se_TrackingStartOk E = true -> EvTrackingStarted wid aid ∈ tr
       | OpComplete _ _ _ => se_TrackingStopOk E = true -> EvTrackingStopped wid aid ∈ tr
       | _ => Forall (fun e => is_tracking e = false) tr
       end).
Proof.
  destruct op; run_unfold; run_split_facts.
  all: trace_exists; cbn in *.
  all: split; [intros; fact_solve | intros ? Hr ?].
  all: try discriminate.
  all: try fact_solve.

Qed.

Lemma tracking_only_with_service_witness :
  exists tr,
    w_trace (snd (run_op repo_ok effects_ok 100 1 7 (OpStart "") world_accepted)) =
      (w_trace world_accepted ++ tr)%list /\
    (se_LocationTrackingService effects_ok = false ->
       Forall (fun e => is_tracking e = false) tr) /\
    (forall a', Ok (wa_start (sample_assignment AssignmentStatusAccepted (Some 50%Z)
                                None None None) 100) = Ok a' ->
       se_LocationTrackingService effects_ok = true ->
       se_TrackingStartOk effects_ok = true -> EvTrackingStarted 7 1 ∈ tr).
Proof.
  exact (tracking_only_with_service repo_ok effects_ok 100 1 7 (OpStart "") world_accepted
    (snd (run_op repo_ok effects_ok 100 1 7 (OpStart "") world_accepted))
    (Ok (wa_start (sample_assignment AssignmentStatusAccepted (Some 50%Z) None None None) 100))
    ltac:(vm_compute; reflexivity)).
Defined.

(** Only CompleteAssignment increments worker earnings, and even Complete
    does not when the worker record is not found. *)
Theorem increment_only_on_complete (R : RepoOutcomes) (E : SideEffectOutcomes)
    (now : Time) (aid wid : nat) (op : Operation) (w w' : World)
    (r : Outcome WorkerAssignment)
    (Hrun : run_op R E now aid wid op w = (r, w')) :
  exists tr, w_trace w' = (w_trace w ++ tr)%list /\
    ((match op with
      | OpComplete _ _ _ => se_WorkerByUserID E wid = None
      | _ => True
      end) -> Forall (fun e => is_increment e = false) tr).
Proof.
  destruct op; run_unfold; run_split_facts; guards; subst.
  all: trace_exists; cbn in *.
  all: intros; fact_solve.
Qed.

Lemma increment_only_on_complete_witness :
  exists tr,
    w_trace (snd (run_op repo_ok effects_no_worker 200 1 7 (OpComplete "" [] [])
                    (world_in_progress (Some 0%Z) None None))) =
      (w_trace (world_in_progress (Some 0%Z) None None) ++ tr)%list /\
    (se_WorkerByUserID effects_no_worker 7 = None ->
       Forall (fun e => is_increment e = false) tr).
Proof.
  exact (increment_only_on_complete repo_ok effects_no_worker 200 1 7 (OpComplete "" [] [])
    (world_in_progress (Some 0%Z) None None)
    (snd (run_op repo_ok effects_no_worker 200 1 7 (OpComplete "" [] [])
            (world_in_progress (Some 0%Z) None None)))
    (Ok (wa_complete (sample_assignment AssignmentStatusInProgress (Some 0%Z) None
                        (Some 0%Z) None) 200))
    ltac:(vm_compute; reflexivity)).
Defined.

Lemma lookup_insert_changed {V : Type} (m : gmap nat V) (i k : nat) (x : V) :
  <[i:=x]> m !! k <> m !! k -> k = i.
Proof.
  intros Hne. destruct (decide (k = i)) as [->|Hki]; [reflexivity|].
  rewrite lookup_insert_ne in Hne; congruence.
Qed.

(** An operation changes at most one assignment row, that of the
    caller's assignment in the operation's required status, and at most one
    booking row, that of this assignment's existing booking. *)
Theorem operation_frame (R : RepoOutcomes) (E : SideEffectOutcomes) (now : Time)
    (aid wid : nat) (op : Operation) (w w' : World) (r : Outcome WorkerAssignment)
    (Hrun : run_op R E now aid wid op w = (r, w')) :
  (forall k, w_assignments w' !! k <> w_assignments w !! k ->
     exists a, w_assignments w !! aid = Some a /\ wa_WorkerID a = wid /\
       wa_Status a = op_pre op /\ k = gm_ID (wa_Model a)) /\
  (forall k, w_bookings w' !! k <> w_bookings w !! k ->
     exists a b, w_assignments w !! aid = Some a /\ wa_WorkerID a = wid /\
       wa_Status a = op_pre op /\ w_bookings w !! wa_BookingID a = Some b /\
       k = gm_ID (booking_Model b)).
Proof.
  destruct op; run_unfold; run_split; guards; cbn in *.
  all: split; intros k Hne.
  all: first [ exfalso; apply Hne; reflexivity
             | apply lookup_insert_changed in Hne; subst k; cbn;
               first [ eexists; split; [first [reflexivity | eassumption]|];
                       split; [assumption|]; split; [assumption|]; reflexivity
                     | eexists _, _; split; [first [reflexivity | eassumption]|];
                       split; [assumption|];
                       split; [assumption|]; split; [eassumption|]; reflexivity ] ].
Qed.

Lemma operation_frame_witness :
  (forall k, w_assignments (snd (run_op repo_ok effects_ok 100 1 7 (OpReject "busy" "")
                                   world_assigned)) !! k <> w_assignments world_assigned !! k ->
     exists a, w_assignments world_assigned !! 1%nat = Some a /\ wa_WorkerID a = 7 /\
       wa_Status a = op_pre (OpReject "busy" "") /\ k = gm_ID (wa_Model a)) /\
  (forall k, w_bookings (snd (run_op repo_ok effects_ok 100 1 7 (OpReject "busy" "")
                                world_assigned)) !! k <> w_bookings world_assigned !! k ->
     exists a b, w_assignments world_assigned !! 1%nat = Some a /\ wa_WorkerID a = 7 /\
       wa_Status a = op_pre (OpReject "busy" "") /\
       w_bookings world_assigned !! wa_BookingID a = Some b /\
       k = gm_ID (booking_Model b)).
Proof.
  exact (operation_frame repo_ok effects_ok 100 1 7 (OpReject "busy" "") world_assigned
    (snd (run_op repo_ok effects_ok 100 1 7 (OpReject "busy" "") world_assigned))
    (Ok (wa_reject (sample_assignment AssignmentStatusAssigned None None None None)
           100 "busy" ""))
    ltac:(vm_compute; reflexivity)).
Defined.

(** The notes of StartAssignment, and the notes, materials and photos of
    CompleteAssignment, have no effect on the outcome or on the stored
    assignments and bookings. *)
Theorem start_complete_ignore_notes (R : RepoOutcomes) (E : SideEffectOutcomes)
    (now : Time) (aid wid : nat) (notes1 notes2 : string)
    (materials1 materials2 photos1 photos2 : list string) (w : World) :
  StartAssignment R E now aid wid notes1 w = StartAssignment R E now aid wid notes2 w /\
  fst (CompleteAssignment R E now aid wid notes1 materials1 photos1 w) =
    fst (CompleteAssignment R E now aid wid notes2 materials2 photos2 w) /\
  w_assignments (snd (CompleteAssignment R E now aid wid notes1 materials1 photos1 w)) =
    w_assignments (snd (CompleteAssignment R E now aid wid notes2 materials2 photos2 w)) /\
  w_bookings (snd (CompleteAssignment R E now aid wid notes1 materials1 photos1 w)) =
    w_bookings (snd (CompleteAssignment R E now aid wid notes2 materials2 photos2 w)).
Proof.
  split; [reflexivity|].
  run_unfold. run_split.
  all: split; [reflexivity | split; reflexivity].
Qed.

(** A successful Start stamps the assignment's StartedAt and the booking's
    ActualStartTime with the same time, sets the booking InProgress, and
    leaves the booking's end time and duration as they were. *)
Theorem start_stamps_both_records (R : RepoOutcomes) (E : SideEffectOutcomes)
    (now : Time) (aid wid : nat) (notes : string) (w w' : World) (a' : WorkerAssignment)
    (Hrun : StartAssignment R E now aid wid notes w = (Ok a', w')) :
  wa_StartedAt a' = Some now /\
  exists b b', w_bookings w !! wa_BookingID a' = Some b /\
    w_bookings w' !! gm_ID (booking_Model b) = Some b' /\
    booking_Status b' = BookingStatusInProgress /\
    booking_ActualStartTime b' = Some now /\
    booking_ActualEndTime b' = booking_ActualEndTime b /\
    booking_ActualDurationMinutes b' = booking_ActualDurationMinutes b.
Proof.
  run_unfold. run_split. cbn in *.
  split; [reflexivity|]. eexists _, _. split; [eassumption|].
  rewrite lookup_insert_eq. split; [reflexivity|]. repeat split.
Qed.

Lemma start_stamps_both_records_witness :
  wa_StartedAt (wa_start (sample_assignment AssignmentStatusAccepted (Some 50%Z)
                            None None None) 100) = Some 100%Z /\
  exists b b', w_bookings world_accepted !! 10%nat = Some b /\
    w_bookings (snd (StartAssignment repo_ok effects_ok 100 1 7 "" world_accepted))
      !! gm_ID (booking_Model b) = Some b' /\
    booking_Status b' = BookingStatusInProgress /\
    booking_ActualStartTime b' = Some 100%Z /\
    booking_ActualEndTime b' = booking_ActualEndTime b /\
    booking_ActualDurationMinutes b' = booking_ActualDurationMinutes b.
Proof.
  exact (start_stamps_both_records repo_ok effects_ok 100 1 7 "" world_accepted
    (snd (StartAssignment repo_ok effects_ok 100 1 7 "" world_accepted))
    (wa_start (sample_assignment AssignmentStatusAccepted (Some 50%Z) None None None) 100)
    ltac:(vm_compute; reflexivity)).
Defined.

(** A successful Complete stamps the assignment's CompletedAt and the
    booking's ActualEndTime with the same time and keeps its start time; the
    duration is left unchanged when the booking never started, and is zero
    or negative when the completion time precedes the start time. *)
Theorem complete_stamps_and_duration_edges (R : RepoOutcomes) (E : SideEffectOutcomes)
    (now : Time) (aid wid : nat) (notes : string) (m p : list string) (w w' : World)
    (a' : WorkerAssignment)
    (Hrun : CompleteAssignment R E now aid wid notes m p w = (Ok a', w')) :
  wa_CompletedAt a' = Some now /\
  exists b b', w_bookings w !! wa_BookingID a' = Some b /\
    w_bookings w' !! gm_ID (booking_Model b) = Some b' /\
    booking_ActualEndTime b' = Some now /\
    booking_ActualStartTime b' = booking_ActualStartTime b /\
    (booking_ActualStartTime b = None ->
       booking_ActualDurationMinutes b' = booking_ActualDurationMinutes b) /\
    (forall start, booking_ActualStartTime b = Some start -> (now < start)%Z ->
       exists d, booking_ActualDurationMinutes b' = Some d /\ (d <= 0)%Z).
Proof.
  run_unfold. run_split. all: cbn in *.
  all: split; [reflexivity|]; eexists _, _; split; [eassumption|].
  all: rewrite lookup_insert_eq; split; [reflexivity|].
  all: unfold booking_set; cbn.
  all: match goal with H : booking_ActualStartTime ?b = _ |- _ => rewrite H end.
  all: split; [reflexivity|]; split; [reflexivity|]; split.
  all: intros; simplify_eq; try reflexivity.
  eexists; split; [reflexivity|].
  apply duration_minutes_nonpos; assumption.
Qed.

Lemma complete_stamps_and_duration_edges_witness :
  wa_CompletedAt (wa_complete (sample_assignment AssignmentStatusInProgress (Some 0%Z)
                                 None (Some 300%Z) None) 200) = Some 200%Z /\
  exists b b', w_bookings (world_in_progress (Some 300%Z) None None) !! 10%nat = Some b /\
    w_bookings (snd (CompleteAssignment repo_ok effects_ok 200 1 7 "" [] []
                       (world_in_progress (Some 300%Z) None None)))
      !! gm_ID (booking_Model b) = Some b' /\
    booking_ActualEndTime b' = Some 200%Z /\
    booking_ActualStartTime b' = booking_ActualStartTime b /\
    (booking_ActualStartTime b = None ->
       booking_ActualDurationMinutes b' = booking_ActualDurationMinutes b) /\
    (forall start, booking_ActualStartTime b = Some start -> (200 < start)%Z ->
       exists d, booking_ActualDurationMinutes b' = Some d /\ (d <= 0)%Z).
Proof.
  exact (complete_stamps_and_duration_edges repo_ok effects_ok 200 1 7 "" [] []
    (world_in_progress (Some 300%Z) None None)
    (snd (CompleteAssignment repo_ok effects_ok 200 1 7 "" [] []
            (world_in_progress (Some 300%Z) None None)))
    (wa_complete (sample_assignment AssignmentStatusInProgress (Some 0%Z)
                    None (Some 300%Z) None) 200)
    ltac:(vm_compute; reflexivity)).
Defined.

(** Rejected and completed are final: after a successful Reject or
    Complete, every operation on the assignment by the same worker fails
    with its status error and leaves the world unchanged. *)
Theorem no_operation_after_reject_or_complete (R : RepoOutcomes) (E : SideEffectOutcomes)
    (now1 now2 : Time) (aid wid : nat) (op1 op2 : Operation) (w w1 : World)
    (a1 : WorkerAssignment)
    (Hkey : forall a, w_assignments w !! aid = Some a -> gm_ID (wa_Model a) = aid)
    (Hop1 : match op1 with OpReject _ _ | OpComplete _ _ _ => True | _ => False end)
    (Hrun : run_op R E now1 aid wid op1 w = (Ok a1, w1)) :
  run_op R E now2 aid wid op2 w1 = (Fail (op_state_error op2), w1).
Proof.
  assert (Hw1 : w_assignments w1 !! aid = Some a1 /\ wa_WorkerID a1 = wid /\
                (wa_Status a1 = AssignmentStatusRejected \/
                 wa_Status a1 = AssignmentStatusCompleted)).
  { destruct op1; try contradiction; run_unfold; run_split; guards.
    all: match goal with
         | |- context [<[gm_ID (wa_Model ?x) := _]> _] =>
             rewrite (Hkey x ltac:(first [reflexivity | assumption]))
         end.
    all: rewrite lookup_insert_eq; split; [reflexivity | split; [assumption | cbn; tauto]]. }
  destruct Hw1 as (Hl & <- & Hs).
  destruct op2; run_unfold; rewrite Hl, Nat.eqb_refl;
    destruct Hs as [Hs|Hs]; rewrite Hs; reflexivity.
Qed.

Lemma no_operation_after_reject_or_complete_witness :
  run_op repo_ok effects_ok 200 1 7 (OpStart "")
    (snd (run_op repo_ok effects_ok 100 1 7 (OpReject "busy" "") world_assigned)) =
  (Fail (op_state_error (OpStart "")),
   snd (run_op repo_ok effects_ok 100 1 7 (OpReject "busy" "") world_assigned)).
Proof.
  exact (no_operation_after_reject_or_complete repo_ok effects_ok 100 200 1 7
    (OpReject "busy" "") (OpStart "") world_assigned
    (snd (run_op repo_ok effects_ok 100 1 7 (OpReject "busy" "") world_assigned))
    (wa_reject (sample_assignment AssignmentStatusAssigned None None None None)
       100 "busy" "")
    (fun a Ha => ltac:(vm_compute in Ha; injection Ha as <-; reflexivity))
    I ltac:(vm_compute; reflexivity)).
Defined.

(** The happy path: Accept, Start and Complete in sequence, with the
    repositories succeeding, leave the assignment completed with all three
    time stamps, and the booking completed with its start, end and duration
    in minutes. *)
Theorem lifecycle_accept_start_complete (R : RepoOutcomes) (E : SideEffectOutcomes)
    (t1 t2 t3 : Time) (aid : nat) (notes1 notes2 notes3 : string) (m p : list string)
    (w : World) (a : WorkerAssignment) (b : Booking)
    (Ha : w_assignments w !! aid = Some a) (Hka : gm_ID (wa_Model a) = aid)
    (Hs : wa_Status a = AssignmentStatusAssigned)
    (Hb : w_bookings w !! wa_BookingID a = Some b)
    (Hkb : gm_ID (booking_Model b) = wa_BookingID a)
    (HU : ro_AssignmentUpdateOk R = true) (HG : ro_BookingGetOk R = true)
    (HB : ro_BookingUpdateOk R = true) :
  let '(r1, w1) := AcceptAssignment R E t1 aid (wa_WorkerID a) notes1 w in
  let '(r2, w2) := StartAssignment R E t2 aid (wa_WorkerID a) notes2 w1 in
  let '(r3, w3) := CompleteAssignment R E t3 aid (wa_WorkerID a) notes3 m p w2 in
  r3 = Ok (wa_complete (wa_start (wa_accept a t1 notes1) t2) t3) /\
  w_assignments w3 !! aid = Some (wa_complete (wa_start (wa_accept a t1 notes1) t2) t3) /\
  exists b3, w_bookings w3 !! wa_BookingID a = Some b3 /\
    booking_Status b3 = BookingStatusCompleted /\
    booking_ActualStartTime b3 = Some t2 /\ booking_ActualEndTime b3 = Some t3 /\
    booking_ActualDurationMinutes b3 = Some (duration_minutes t3 t2).
Proof.
  run_unfold.
  repeat (first [ tail_step
                | progress rewrite ?Ha, ?Hb, ?Nat.eqb_refl, ?Hs, ?HU, ?HG, ?HB
                | progress rewrite ?Hka, ?Hkb
                | progress rewrite lookup_insert_eq
                | progress cbn -[lookup insert] ]).
  split; [reflexivity|]. split; [reflexivity|].
  eexists; split; [reflexivity|]. repeat split.
Qed.

Lemma lifecycle_accept_start_complete_witness :
  let '(r1, w1) := AcceptAssignment repo_ok effects_ok 100 1 7 "ok" world_assigned in
  let '(r2, w2) := StartAssignment repo_ok effects_ok 200 1 7 "" w1 in
  let '(r3, w3) := CompleteAssignment repo_ok effects_ok 5000 1 7 "" [] [] w2 in
  r3 = Ok (wa_complete (wa_start (wa_accept (sample_assignment AssignmentStatusAssigned
                                                None None None None) 100 "ok") 200) 5000) /\
  w_assignments w3 !! 1%nat =
    Some (wa_complete (wa_start (wa_accept (sample_assignment AssignmentStatusAssigned
                                               None None None None) 100 "ok") 200) 5000) /\
  exists b3, w_bookings w3 !! 10%nat = Some b3 /\
    booking_Status b3 = BookingStatusCompleted /\
    booking_ActualStartTime b3 = Some 200%Z /\ booking_ActualEndTime b3 = Some 5000%Z /\
    booking_ActualDurationMinutes b3 = Some (duration_minutes 5000 200).
Proof.
  exact (lifecycle_accept_start_complete repo_ok effects_ok 100 200 5000 1 "ok" "" "" [] []
    world_assigned (sample_assignment AssignmentStatusAssigned None None None None)
    (sample_booking None None None)
    eq_refl eq_refl eq_refl eq_refl eq_refl eq_refl eq_refl eq_refl).
Defined.

(** sendWorkerAssignmentNotification ignores its status argument; it sends
    the worker-assigned notification and then the assigned-to-work
    notification when the integration service, the booking and the worker
    are all available, and sends nothing otherwise. *)
Theorem assignment_notification_calls (N : NotificationEnv) (R : RepoOutcomes) (w : World)
    (a : WorkerAssignment) (status1 status2 : string) :
  sendWorkerAssignmentNotification N R w a status1 =
    sendWorkerAssignmentNotification N R w a status2 /\
  (forall booking worker, ne_IntegrationService N = true ->
     (if ro_BookingGetOk R then w_bookings w !! wa_BookingID a else None) = Some booking ->
     ne_UserByID N (wa_WorkerID a) = Some worker ->
     List.filter is_notify (sendWorkerAssignmentNotification N R w a status1) =
       [NcNotifyWorkerAssigned (gm_ID (booking_Model booking)) (user_ID worker)
          (service_ID (booking_Service booking));
        NcNotifyWorkerAssignedToWork (user_ID worker) (gm_ID (booking_Model booking))
          (service_ID (booking_Service booking))]) /\
  (ne_IntegrationService N = false \/
   (if ro_BookingGetOk R then w_bookings w !! wa_BookingID a else None) = None \/
   ne_UserByID N (wa_WorkerID a) = None ->
   List.filter is_notify (sendWorkerAssignmentNotification N R w a status1) = []).
Proof.
  unfold sendWorkerAssignmentNotification, with_booking_and_worker, notify_call.
  split; [reflexivity|]. split.
  - intros booking worker Hn Hb Hu. rewrite Hn, Hb, Hu.
    repeat case_match; reflexivity.
  - intros Hnone. destruct (ne_IntegrationService N); [|reflexivity].
    destruct (if ro_BookingGetOk R then _ else _); [|reflexivity].
    destruct (ne_UserByID N (wa_WorkerID a)); [|reflexivity].
    destruct Hnone as [H|[H|H]]; discriminate.
Qed.

(** sendWorkerStartedNotification and sendWorkerCompletedNotification
    each send their single notification when the integration service, the
    booking and the worker are all available, and send nothing otherwise. *)
Theorem started_completed_notification_calls (N : NotificationEnv) (R : RepoOutcomes)
    (w : World) (a : WorkerAssignment) :
  (forall booking worker, ne_IntegrationService N = true ->
     (if ro_BookingGetOk R then w_bookings w !! wa_BookingID a else None) = Some booking ->
     ne_UserByID N (wa_WorkerID a) = Some worker ->
     List.filter is_notify (sendWorkerStartedNotification N R w a) =
       [NcNotifyWorkerStarted (gm_ID (booking_Model booking)) (user_ID worker)
          (service_ID (booking_Service booking))] /\
     List.filter is_notify (sendWorkerCompletedNotification N R w a) =
       [NcNotifyWorkerCompleted (gm_ID (booking_Model booking)) (user_ID worker)
          (service_ID (booking_Service booking))]) /\
  (ne_IntegrationService N = false \/
   (if ro_BookingGetOk R then w_bookings w !! wa_BookingID a else None) = None \/
   ne_UserByID N (wa_WorkerID a) = None ->
   List.filter is_notify (sendWorkerStartedNotification N R w a) = [] /\
   List.filter is_notify (sendWorkerCompletedNotification N R w a) = []).
Proof.
  unfold sendWorkerStartedNotification, sendWorkerCompletedNotification,
    with_booking_and_worker, notify_call.
  split.
  - intros booking worker Hn Hb Hu. rewrite Hn, Hb, Hu.
    split; repeat case_match; reflexivity.
  - intros Hnone. destruct (ne_IntegrationService N); [|split; reflexivity].
    destruct (if ro_BookingGetOk R then _ else _); [|split; reflexivity].
    destruct (ne_UserByID N (wa_WorkerID a)); [|split; reflexivity].
    destruct Hnone as [H|[H|H]]; discriminate.
Qed.
